(** * terraform-provider-proxmox-ve: provider configuration and VM-config lookup

    A shallow embedding of [internal/provider/provider.go] and
    [internal/provider/vm_config_data_source.go].

    Go strings are byte sequences and are modelled by [string] (a list of
    8-bit [ascii]).  A Go run-time panic is an explicit [Panic] outcome.
    Calls to the remote Proxmox VE API are answered by an oracle record and
    logged in a trace, so that "no remote call" and "a single call" are
    statements about that trace.  Structured logging ([tflog]) has no effect
    on any value the provider returns and is left out. *)

From Stdlib Require Import String Ascii List ZArith Bool Lia Permutation.
Import ListNotations.
Local Open Scope string_scope.
Local Open Scope list_scope.

(** ** Outcomes: a returned value or a run-time panic *)

Inductive RuntimeError : Type :=
| IndexOutOfRange (index length : nat)
| NilPointerDereference.

Inductive outcome (A : Type) : Type :=
| Ok (a : A)
| Panic (e : RuntimeError).

Arguments Ok {A} a.
Arguments Panic {A} e.

Definition bind {A B : Type} (m : outcome A) (k : A -> outcome B) : outcome B :=
  match m with
  | Ok a => k a
  | Panic e => Panic e
  end.

Notation "x <- m ;; k" := (bind m (fun x => k))
  (at level 61, m at next level, right associativity).

(** [l[i]] on a Go slice: panics when [i] is not below [len(l)]. *)
Definition index {A : Type} (l : list A) (i : nat) : outcome A :=
  match nth_error l i with
  | Some x => Ok x
  | None => Panic (IndexOutOfRange i (length l))
  end.

(** ** Package [strings] *)

Module strings.

(** [strings.Split(s, sep)] for a one-byte separator: the pieces of [s]
    between the occurrences of [sep]; [[s]] when [sep] does not occur, and
    [[""]] for the empty string. *)
Fixpoint Split (s : string) (sep : ascii) : list string :=
  match s with
  | EmptyString => [EmptyString]
  | String c rest =>
      if Ascii.eqb c sep then EmptyString :: Split rest sep
      else match Split rest sep with
           | piece :: pieces => String c piece :: pieces
           | [] => [String c EmptyString]
           end
  end.

(** Whether byte [c] occurs in [s] ([strings.IndexByte(s, c) >= 0]). *)
Fixpoint Contains (s : string) (c : ascii) : bool :=
  match s with
  | EmptyString => false
  | String a rest => Ascii.eqb a c || Contains rest c
  end.

End strings.

(** ** Package [strconv] *)

Module strconv.

Inductive Err : Type := ErrSyntax | ErrRange.

(** [*strconv.NumError]: the failing function, the offending text and the
    cause.  Its [Error()] text quotes [Num]; the embedding keeps the record
    itself (see [Detail] below). *)
Record NumError : Type := mkNumError { Func : string; Num : string; Cause : Err }.

Definition syntaxError (fn str : string) : NumError := mkNumError fn str ErrSyntax.
Definition rangeError (fn str : string) : NumError := mkNumError fn str ErrRange.

Definition strIn (s : string) (l : list string) : bool :=
  existsb (String.eqb s) l.

Definition ParseBool (str : string) : bool + NumError :=
  if strIn str ["1"; "t"; "T"; "true"; "TRUE"; "True"] then inl true
  else if strIn str ["0"; "f"; "F"; "false"; "FALSE"; "False"] then inl false
  else inr (syntaxError "ParseBool" str).

Local Open Scope Z_scope.

Definition byte (c : ascii) : Z := Z.of_N (N_of_ascii c).

Definition maxUint64 : Z := 2 ^ 64 - 1.

(** The digit loop of [ParseUint(s, 10, bitSize)].  In base 10 every byte
    outside ['0'..'9'] is a syntax error (letters decode to a digit of at
    least 10, underscores are only accepted for base 0).  [n] is a
    [uint64]; its wrap-around is written out. *)
Fixpoint uintLoop (s0 s : string) (maxVal n : Z) : Z * option NumError :=
  match s with
  | EmptyString => (n, None)
  | String c rest =>
      let b := byte c in
      if (48 <=? b) && (b <=? 57) then
        let d := b - 48 in
        if n >=? maxUint64 / 10 + 1 then (maxVal, Some (rangeError "ParseUint" s0))
        else
          let n10 := (n * 10) mod 2 ^ 64 in
          let n1 := (n10 + d) mod 2 ^ 64 in
          if (n1 <? n10) || (n1 >? maxVal) then (maxVal, Some (rangeError "ParseUint" s0))
          else uintLoop s0 rest maxVal n1
      else (0, Some (syntaxError "ParseUint" s0))
  end.

Definition ParseUint10 (s : string) (bitSize : Z) : Z * option NumError :=
  match s with
  | EmptyString => (0, Some (syntaxError "ParseUint" s))
  | _ => uintLoop s s (2 ^ bitSize - 1) 0
  end.

(** [strconv.ParseInt(s, 10, bitSize)] for [0 < bitSize <= 64]. *)
Definition ParseInt10 (s0 : string) (bitSize : Z) : Z + NumError :=
  match s0 with
  | EmptyString => inr (syntaxError "ParseInt" s0)
  | String c rest =>
      let neg := Ascii.eqb c "-" in
      let s := if Ascii.eqb c "+" || neg then rest else s0 in
      let '(un, err) := ParseUint10 s bitSize in
      match err with
      | Some (mkNumError _ _ ErrSyntax) => inr (syntaxError "ParseInt" s0)
      | _ =>
          let cutoff := 2 ^ (bitSize - 1) in
          if negb neg && (un >=? cutoff) then inr (rangeError "ParseInt" s0)
          else if neg && (un >? cutoff) then inr (rangeError "ParseInt" s0)
          else inl (if neg then - un else un)
      end
  end.

End strconv.

(** ** Terraform framework values ([types.String], [types.Bool], [types.Int32]) *)

Module types.

(** A framework value is null (the zero value of the Go struct), unknown,
    or a known value. *)
Inductive attr (A : Type) : Type :=
| Null
| Unknown
| Value (a : A).

Arguments Null {A}.
Arguments Unknown {A}.
Arguments Value {A} a.

Definition String := attr string.
Definition Bool := attr bool.
Definition Int32 := attr Z.

Definition IsNull {A} (v : attr A) : bool :=
  match v with Null => true | _ => false end.

Definition IsUnknown {A} (v : attr A) : bool :=
  match v with Unknown => true | _ => false end.

Definition StringValue (s : string) : String := Value s.
Definition BoolValue (b : bool) : Bool := Value b.
Definition Int32Value (z : Z) : Int32 := Value z.

(** The [Value...()] accessors return the Go zero value for null and
    unknown. *)
Definition ValueString (v : String) : string :=
  match v with Value s => s | _ => "" end.
Definition ValueBool (v : Bool) : bool :=
  match v with Value b => b | _ => false end.
Definition ValueInt32 (v : Int32) : Z :=
  match v with Value z => z | _ => 0%Z end.

End types.

(** Go's conversion [int32(v)] of an [int64]: the low 32 bits, signed. *)
Definition int32 (v : Z) : Z := ((v + 2 ^ 31) mod 2 ^ 32 - 2 ^ 31)%Z.

(** ** Package [diag]: the framework's diagnostics collection *)

Module diag.

Inductive Severity : Type := SeverityError | SeverityWarning.

(** The operands of a [fmt.Sprintf] call.  An [error] operand produced by
    [strconv] is kept as its [NumError]; an error of the API client is kept
    as its text. *)
Inductive Operand : Type :=
| OpString (s : string)
| OpInt (z : Z)
| OpNumError (e : strconv.NumError).

(** The detail text of a diagnostic: a literal, or a [fmt.Sprintf] call kept
    as its format and operands.  Every format used by the provider ends in
    its last verb and [NumError.Error()] quotes the offending text, so two
    rendered details are the same text exactly when format and operands
    agree. *)
Inductive Detail : Type :=
| Text (s : string)
| Sprintf (format : string) (operands : list Operand).

Record Diagnostic : Type := mkDiagnostic {
  severity : Severity;
  summary : string;
  detail : Detail;
  path : option string   (* [path.Root(name)] of an attribute diagnostic *)
}.

Definition Diagnostics := list Diagnostic.

Definition Err_eq_dec (a b : strconv.Err) : {a = b} + {a <> b}.
Proof. decide equality. Defined.

Definition NumError_eq_dec (a b : strconv.NumError) : {a = b} + {a <> b}.
Proof. decide equality; auto using string_dec, Err_eq_dec. Defined.

Definition Operand_eq_dec (a b : Operand) : {a = b} + {a <> b}.
Proof. decide equality; auto using string_dec, Z.eq_dec, NumError_eq_dec. Defined.

Definition Detail_eq_dec (a b : Detail) : {a = b} + {a <> b}.
Proof.
  decide equality; solve [apply string_dec | apply (list_eq_dec Operand_eq_dec)].
Defined.

Definition Severity_eq_dec (a b : Severity) : {a = b} + {a <> b}.
Proof. decide equality. Defined.

(** [Diagnostic.Equal]: same kind, same attribute path, same summary and
    detail. *)
Definition Diagnostic_eq_dec (a b : Diagnostic) : {a = b} + {a <> b}.
Proof.
  decide equality; auto using string_dec, Detail_eq_dec, Severity_eq_dec.
  decide equality; auto using string_dec.
Defined.

Definition Equal (a b : Diagnostic) : bool :=
  if Diagnostic_eq_dec a b then true else false.

Definition Contains (diags : Diagnostics) (d : Diagnostic) : bool :=
  existsb (fun x => Equal x d) diags.

(** One round of the loop of [Diagnostics.Append]: duplicates are dropped. *)
Definition append1 (diags : Diagnostics) (d : Diagnostic) : Diagnostics :=
  if Contains diags d then diags else diags ++ [d].

Definition Append (diags : Diagnostics) (new : list Diagnostic) : Diagnostics :=
  fold_left append1 new diags.

Definition NewErrorDiagnostic (summary : string) (detail : Detail) : Diagnostic :=
  mkDiagnostic SeverityError summary detail None.

Definition NewAttributeErrorDiagnostic (p summary : string) (detail : Detail) : Diagnostic :=
  mkDiagnostic SeverityError summary detail (Some p).

Definition AddError (diags : Diagnostics) (summary : string) (detail : Detail) : Diagnostics :=
  Append diags [NewErrorDiagnostic summary detail].

Definition AddAttributeError (diags : Diagnostics) (p summary : string) (detail : Detail)
  : Diagnostics :=
  Append diags [NewAttributeErrorDiagnostic p summary detail].

Definition isError (d : Diagnostic) : bool :=
  match severity d with SeverityError => true | SeverityWarning => false end.

Definition HasError (diags : Diagnostics) : bool := existsb isError diags.

(** The error diagnostics of a collection, and those attributed to one
    attribute path. *)
Definition Errors (diags : Diagnostics) : list Diagnostic := filter isError diags.

Definition hasPath (p : string) (d : Diagnostic) : bool :=
  match path d with Some q => String.eqb p q | None => false end.

Definition ErrorsAt (p : string) (diags : Diagnostics) : list Diagnostic :=
  filter (hasPath p) (Errors diags).

End diag.

(** ** The VM-config data source: model types *)

Record vmConfigDataSourceFilterModel : Type := {
  NodeName : types.String;
  VMID : types.Int32
}.

(** [Trunks] is a Go slice: [None] is the nil slice (a null list in the
    state), [Some l] an allocated slice, possibly empty. *)
Record vmConfigDataSourceNetworkInterfaceModel : Type := {
  Bridge : types.String;
  Firewall : types.Bool;
  HardwareAddress : types.String;
  LinkDown : types.Bool;
  Model : types.String;
  MTU : types.Int32;
  Queues : types.Int32;
  Rate : types.Int32;
  RawConfig : types.String;
  Tag : types.Int32;
  Trunks : option (list types.Int32)
}.

Record vmConfigDataSourceDataModel : Type := {
  Name : types.String;
  Node : types.String;
  NetworkInterfaces : list vmConfigDataSourceNetworkInterfaceModel;
  Status : types.String;
  DataVMID : types.Int32   (* field [VMID] of the data model *)
}.

(** [Data] and [Filter] are pointers: [None] is nil. *)
Record vmConfigDataSourceModel : Type := {
  Data : option vmConfigDataSourceDataModel;
  Filter : option vmConfigDataSourceFilterModel
}.

(** Field assignments [iface.F = v]. *)
Definition set_Bridge v (i : vmConfigDataSourceNetworkInterfaceModel) :=
  {| Bridge := v; Firewall := Firewall i; HardwareAddress := HardwareAddress i;
     LinkDown := LinkDown i; Model := Model i; MTU := MTU i; Queues := Queues i;
     Rate := Rate i; RawConfig := RawConfig i; Tag := Tag i; Trunks := Trunks i |}.
Definition set_Firewall v (i : vmConfigDataSourceNetworkInterfaceModel) :=
  {| Bridge := Bridge i; Firewall := v; HardwareAddress := HardwareAddress i;
     LinkDown := LinkDown i; Model := Model i; MTU := MTU i; Queues := Queues i;
     Rate := Rate i; RawConfig := RawConfig i; Tag := Tag i; Trunks := Trunks i |}.
Definition set_HardwareAddress v (i : vmConfigDataSourceNetworkInterfaceModel) :=
  {| Bridge := Bridge i; Firewall := Firewall i; HardwareAddress := v;
     LinkDown := LinkDown i; Model := Model i; MTU := MTU i; Queues := Queues i;
     Rate := Rate i; RawConfig := RawConfig i; Tag := Tag i; Trunks := Trunks i |}.
Definition set_LinkDown v (i : vmConfigDataSourceNetworkInterfaceModel) :=
  {| Bridge := Bridge i; Firewall := Firewall i; HardwareAddress := HardwareAddress i;
     LinkDown := v; Model := Model i; MTU := MTU i; Queues := Queues i;
     Rate := Rate i; RawConfig := RawConfig i; Tag := Tag i; Trunks := Trunks i |}.
Definition set_Model v (i : vmConfigDataSourceNetworkInterfaceModel) :=
  {| Bridge := Bridge i; Firewall := Firewall i; HardwareAddress := HardwareAddress i;
     LinkDown := LinkDown i; Model := v; MTU := MTU i; Queues := Queues i;
     Rate := Rate i; RawConfig := RawConfig i; Tag := Tag i; Trunks := Trunks i |}.
Definition set_MTU v (i : vmConfigDataSourceNetworkInterfaceModel) :=
  {| Bridge := Bridge i; Firewall := Firewall i; HardwareAddress := HardwareAddress i;
     LinkDown := LinkDown i; Model := Model i; MTU := v; Queues := Queues i;
     Rate := Rate i; RawConfig := RawConfig i; Tag := Tag i; Trunks := Trunks i |}.
Definition set_Queues v (i : vmConfigDataSourceNetworkInterfaceModel) :=
  {| Bridge := Bridge i; Firewall := Firewall i; HardwareAddress := HardwareAddress i;
     LinkDown := LinkDown i; Model := Model i; MTU := MTU i; Queues := v;
     Rate := Rate i; RawConfig := RawConfig i; Tag := Tag i; Trunks := Trunks i |}.
Definition set_Rate v (i : vmConfigDataSourceNetworkInterfaceModel) :=
  {| Bridge := Bridge i; Firewall := Firewall i; HardwareAddress := HardwareAddress i;
     LinkDown := LinkDown i; Model := Model i; MTU := MTU i; Queues := Queues i;
     Rate := v; RawConfig := RawConfig i; Tag := Tag i; Trunks := Trunks i |}.
Definition set_Tag v (i : vmConfigDataSourceNetworkInterfaceModel) :=
  {| Bridge := Bridge i; Firewall := Firewall i; HardwareAddress := HardwareAddress i;
     LinkDown := LinkDown i; Model := Model i; MTU := MTU i; Queues := Queues i;
     Rate := Rate i; RawConfig := RawConfig i; Tag := v; Trunks := Trunks i |}.
Definition set_Trunks v (i : vmConfigDataSourceNetworkInterfaceModel) :=
  {| Bridge := Bridge i; Firewall := Firewall i; HardwareAddress := HardwareAddress i;
     LinkDown := LinkDown i; Model := Model i; MTU := MTU i; Queues := Queues i;
     Rate := Rate i; RawConfig := RawConfig i; Tag := Tag i; Trunks := v |}.

(** ** [parseNetworkConfig] *)

(** The [diag.AddError("Unexpected VM Config Value", fmt.Sprintf(format,
    err.Error()))] call of every failing coercion. *)
Definition unexpectedValue (dg : diag.Diagnostics) (format : string)
  (err : strconv.NumError) : diag.Diagnostics :=
  diag.AddError dg "Unexpected VM Config Value" (diag.Sprintf format [diag.OpNumError err]).

(** The inner loop of the ["trunks"] case: every element is parsed on its
    own; a failing element is reported and skipped. *)
Fixpoint trunksLoop (elems : list string) (trunks : list types.Int32)
  (dg : diag.Diagnostics) : list types.Int32 * diag.Diagnostics :=
  match elems with
  | [] => (trunks, dg)
  | trunk :: rest =>
      match strconv.ParseInt10 trunk 32 with
      | inr err =>
          trunksLoop rest trunks
            (unexpectedValue dg
               "The value for the 'trunks' property for the network interface was not expected: %s"
               err)
      | inl val => trunksLoop rest (trunks ++ [types.Int32Value (int32 val)]) dg
      end
  end.

Definition ifaceState : Type :=
  (vmConfigDataSourceNetworkInterfaceModel * diag.Diagnostics)%type.

(** The [switch key] of the loop body. *)
Definition switchKey (key value : string) (st : ifaceState) : ifaceState :=
  let '(iface, dg) := st in
  if key =? "model" then (set_Model (types.StringValue value) iface, dg)
  else if key =? "bridge" then (set_Bridge (types.StringValue value) iface, dg)
  else if key =? "firewall" then
    match strconv.ParseBool value with
    | inr err =>
        (iface, unexpectedValue dg
           "The value for the 'firewall' property for the network interface was not expected: %s"
           err)
    | inl val => (set_Firewall (types.BoolValue val) iface, dg)
    end
  else if key =? "link_down" then
    match strconv.ParseBool value with
    | inr err =>
        (iface, unexpectedValue dg
           "The value for the 'link_down' property for the network interface was not expected: %s"
           err)
    | inl val => (set_LinkDown (types.BoolValue val) iface, dg)
    end
  else if (key =? "macaddr") || (key =? "virtio") then
    (set_HardwareAddress (types.StringValue value) iface, dg)
  else if key =? "mtu" then
    match strconv.ParseInt10 value 32 with
    | inr err =>
        (iface, unexpectedValue dg
           "The value for the 'mtu' property for the network interface was not expected: %s"
           err)
    | inl val => (set_MTU (types.Int32Value (int32 val)) iface, dg)
    end
  else if key =? "queues" then
    match strconv.ParseInt10 value 32 with
    | inr err =>
        (iface, unexpectedValue dg
           "The value for the 'queues' property for the network interface was not expected: %s"
           err)
    | inl val => (set_Queues (types.Int32Value (int32 val)) iface, dg)
    end
  else if key =? "rate" then
    match strconv.ParseInt10 value 32 with
    | inr err =>
        (iface, unexpectedValue dg
           "The value for the 'rate' property for the network interface was not expected: %s"
           err)
    | inl val => (set_Rate (types.Int32Value (int32 val)) iface, dg)
    end
  else if key =? "tag" then
    match strconv.ParseInt10 value 32 with
    | inr err =>
        (iface, unexpectedValue dg
           "The value for the 'tag' property for the network interface was not expected: %s"
           err)
    | inl val => (set_Tag (types.Int32Value (int32 val)) iface, dg)
    end
  else if key =? "trunks" then
    let '(trunks, dg') := trunksLoop (strings.Split value ";") [] dg in
    (set_Trunks (Some trunks) iface, dg')
  else (iface, dg).

(** One round of [for _, pair := range pairs]: [kv[1]] panics when the pair
    holds no ['=']. *)
Definition parsePair (pair : string) (st : ifaceState) : outcome ifaceState :=
  let kv := strings.Split pair "=" in
  key <- index kv 0 ;;
  value <- index kv 1 ;;
  Ok (switchKey key value st).

Fixpoint forPairs (pairs : list string) (st : ifaceState) : outcome ifaceState :=
  match pairs with
  | [] => Ok st
  | pr :: rest => st' <- parsePair pr st ;; forPairs rest st'
  end.

(** [parseNetworkConfig(ctx, config, diag)].  The parameter [diag] is a
    [diag.Diagnostics] slice passed by value, so [diag.AddError] extends the
    parser's own copy.  The result pairs the returned interface with the final
    value of that local collection; the Go function returns the interface
    only, and the caller's collection is the one it passed in. *)
Definition parseNetworkConfig (config : string) (dg : diag.Diagnostics)
  : outcome ifaceState :=
  let iface := {| Bridge := types.Null; Firewall := types.Null;
                  HardwareAddress := types.Null; LinkDown := types.Null;
                  Model := types.Null; MTU := types.Null; Queues := types.Null;
                  Rate := types.Null; RawConfig := types.StringValue config;
                  Tag := types.Null; Trunks := None |} in
  forPairs (strings.Split config ",") (iface, dg).

(** ** The API client library ([go-proxmox]) as an oracle *)

Module proxmox.

(** What [proxmox.NewClient(baseURL, WithHTTPClient(..), WithAPIToken(id,
    secret))] is built from. *)
Record Client : Type := {
  baseURL : string;
  InsecureSkipVerify : bool;
  tokenID : string;
  tokenSecret : string
}.

Record Version : Type := { Release : string; RepoID : string; VersionText : string }.

Record Node : Type := { NodeHandle : string }.

(** [MergeNets()] returns a Go map from slot name to raw line; the list is
    that map in the order the [range] loop happens to visit it. *)
Record VirtualMachineConfig : Type := { MergeNets : list (string * string) }.

Record VirtualMachine : Type := {
  Name : string;
  VMNode : string;       (* field [Node] *)
  Status : string;
  VMID : Z;
  Config : option VirtualMachineConfig   (* field [VirtualMachineConfig], nil = [None] *)
}.

(** The remote side.  A library call returns the Go pair of a pointer to its
    result ([None] is nil) and an error ([None] is nil, [Some text] carries
    [err.Error()]), or it faults inside the library.  Nothing forces the
    pointer to be non-nil when the error is nil.  [VirtualMachine] is a method
    of the node pointer the node request returned, nil included. *)
Record API : Type := {
  Client_Version : Client -> outcome (option Version * option string);
  Client_Node : Client -> string -> outcome (option Node * option string);
  Node_VirtualMachine :
    option Node -> Z -> outcome (option VirtualMachine * option string)
}.

(** The requests a run has issued, oldest first. *)
Inductive Call : Type :=
| CallVersion (c : Client)
| CallNode (c : Client) (name : string)
| CallVirtualMachine (n : option Node) (vmid : Z).

End proxmox.

(** ** The provider *)

Record proxmoxveProvider : Type := { version : string }.

Record proxmoxveProviderData : Type := {
  client : proxmox.Client;
  endpoint : string;
  provider : proxmoxveProvider
}.

Record proxmoxveProviderModel : Type := {
  APITokenID : types.String;
  APITokenSecret : types.String;
  APITokenUsername : types.String;
  Endpoint : types.String;
  IgnoreUntrustedSSLCertificate : types.Bool
}.

Module provider.

(** [req.Config.Get(ctx, &config)]: the decoded configuration and the
    diagnostics of decoding it. *)
Record ConfigureRequest : Type := {
  Config : proxmoxveProviderModel;
  ConfigDiags : diag.Diagnostics
}.

Record ConfigureResponse : Type := {
  Diagnostics : diag.Diagnostics;
  DataSourceData : option proxmoxveProviderData;
  ResourceData : option proxmoxveProviderData
}.

End provider.

Definition unknownDetail (what : string) : diag.Detail :=
  diag.Text ("The provider cannot create the Proxmox VE API client as there is an unknown configuration value for "
             ++ "the " ++ what ++ ". Either target apply the source of the value first, set the value "
             ++ "statically in the configuration, or use a variable in the configuration.").

Definition missingDetail (what : string) : diag.Detail :=
  diag.Text ("The provider cannot create the Proxmox VE API client as there is a missing or empty value for "
             ++ "the " ++ what ++ ". Either target apply the source of the value first, set the value "
             ++ "statically in the configuration, or use a variable in the configuration.").

(** The four [IsUnknown] checks, in source order.  The check that reports
    [api_token_username] tests [config.APITokenID], as the source does. *)
Definition checkUnknown (config : proxmoxveProviderModel) (dg : diag.Diagnostics)
  : diag.Diagnostics :=
  let dg :=
    if types.IsUnknown (APITokenID config)
    then diag.AddAttributeError dg "api_token_id" "Unknown Proxmox VE API Token ID"
           (unknownDetail "API token ID")
    else dg in
  let dg :=
    if types.IsUnknown (APITokenSecret config)
    then diag.AddAttributeError dg "api_token_secret" "Unknown Proxmox VE API Token Secret"
           (unknownDetail "API token secret")
    else dg in
  let dg :=
    if types.IsUnknown (APITokenID config)
    then diag.AddAttributeError dg "api_token_username" "Unknown Proxmox VE API Token Username"
           (unknownDetail "API token username")
    else dg in
  if types.IsUnknown (Endpoint config)
  then diag.AddAttributeError dg "endpoint" "Unknown Proxmox VE Endpoint"
         (unknownDetail "endpoint")
  else dg.

(** The four emptiness checks, in source order. *)
Definition checkMissing (config : proxmoxveProviderModel) (dg : diag.Diagnostics)
  : diag.Diagnostics :=
  let dg :=
    if types.ValueString (APITokenID config) =? ""
    then diag.AddAttributeError dg "api_token_id" "Missing Proxmox VE API Token ID"
           (missingDetail "API token ID")
    else dg in
  let dg :=
    if types.ValueString (APITokenSecret config) =? ""
    then diag.AddAttributeError dg "api_token_secret" "Missing Proxmox VE API Token Secret"
           (missingDetail "API token secret")
    else dg in
  let dg :=
    if types.ValueString (APITokenUsername config) =? ""
    then diag.AddAttributeError dg "api_token_username" "Missing Proxmox VE API Token Username"
           (missingDetail "API token username")
    else dg in
  if types.ValueString (Endpoint config) =? ""
  then diag.AddAttributeError dg "endpoint" "Missing Proxmox VE Endpoint"
         (missingDetail "endpoint")
  else dg.

(** The client built from a configuration that passed both checks. *)
Definition newClient (config : proxmoxveProviderModel) : proxmox.Client :=
  {| proxmox.baseURL := types.ValueString (Endpoint config) ++ "/api2/json";
     proxmox.InsecureSkipVerify := types.ValueBool (IgnoreUntrustedSSLCertificate config);
     proxmox.tokenID := types.ValueString (APITokenUsername config) ++ "!"
                        ++ types.ValueString (APITokenID config);
     proxmox.tokenSecret := types.ValueString (APITokenSecret config) |}.

(** The two characters the Go escapes [\n\t] stand for in a string literal:
    line feed and horizontal tab. *)
Definition newlineTab : string := String "010" (String "009" "").

Definition returnNoData (dg : diag.Diagnostics) (calls : list proxmox.Call)
  : outcome provider.ConfigureResponse * list proxmox.Call :=
  (Ok {| provider.Diagnostics := dg; provider.DataSourceData := None;
         provider.ResourceData := None |}, calls).

(** [(p *proxmoxveProvider) Configure(ctx, req, resp)], on a response that
    starts empty.  The result is how the call ends (the response at return,
    or the fault) together with the API requests issued up to there.  After
    the version request only [err] is tested; the log entry that follows
    reads [version.Release] and faults when the pointer is nil. *)
Definition Configure (api : proxmox.API) (p : proxmoxveProvider)
  (req : provider.ConfigureRequest)
  : outcome provider.ConfigureResponse * list proxmox.Call :=
  let config := provider.Config req in
  let dg := diag.Append [] (provider.ConfigDiags req) in
  if diag.HasError dg then returnNoData dg [] else
  let dg := checkUnknown config dg in
  if diag.HasError dg then returnNoData dg [] else
  let dg := checkMissing config dg in
  if diag.HasError dg then returnNoData dg [] else
  let client := newClient config in
  let calls := [proxmox.CallVersion client] in
  match proxmox.Client_Version api client with
  | Panic e => (Panic e, calls)
  | Ok (version, err) =>
      let dg :=
        match err with
        | Some text =>
            diag.AddError dg "Proxmox VE API: Get Version Failed"
              (diag.Sprintf
                 ("Failed to get the Proxmox VE version details from the API:"
                  ++ newlineTab ++ "%s")
                 [diag.OpString text])
        | None => dg
        end in
      if diag.HasError dg then returnNoData dg calls else
      match version with
      | None => (Panic NilPointerDereference, calls)
      | Some _ =>
          let data := {| client := client; endpoint := types.ValueString (Endpoint config);
                         provider := p |} in
          (Ok {| provider.Diagnostics := dg; provider.DataSourceData := Some data;
                 provider.ResourceData := Some data |}, calls)
      end
  end.

(** ** The data source *)

(** [providerData] is a pointer: [None] is nil (the data source was never
    handed the provider's data). *)
Record vmConfigDataSource : Type := { providerData : option proxmoxveProviderData }.

Module datasource.

Record ReadRequest : Type := {
  Config : vmConfigDataSourceModel;
  ConfigDiags : diag.Diagnostics
}.

(** [State] is [Some] once [resp.State.Set] has stored a model. *)
Record ReadResponse : Type := {
  Diagnostics : diag.Diagnostics;
  State : option vmConfigDataSourceModel
}.

End datasource.

Definition ReadResult : Type := (datasource.ReadResponse * list proxmox.Call)%type.

Definition returnNoState (dg : diag.Diagnostics) (calls : list proxmox.Call)
  : outcome ReadResult :=
  Ok ({| datasource.Diagnostics := dg; datasource.State := None |}, calls).

(** [for name, config := range vm.VirtualMachineConfig.MergeNets()]: empty
    lines are skipped; every other line is parsed with the response's
    diagnostics passed by value, so [dg] is the same at every round and
    after the loop. *)
Fixpoint parseNets (nets : list (string * string)) (dg : diag.Diagnostics)
  (ifaces : list vmConfigDataSourceNetworkInterfaceModel)
  : outcome (list vmConfigDataSourceNetworkInterfaceModel) :=
  match nets with
  | [] => Ok ifaces
  | (name, config) :: rest =>
      if config =? "" then parseNets rest dg ifaces
      else
        parsed <- parseNetworkConfig config dg ;;
        parseNets rest dg (ifaces ++ [fst parsed])
  end.

(** [(d *vmConfigDataSource) Read(ctx, req, resp)], on a response that starts
    empty.  [d.providerData.AddLogContext] reads [p.endpoint] and panics on a
    nil receiver.  A fault inside a library call ends the lookup; after each
    call only [err] is tested, and building the state reads [vm.Name], which
    faults when the pointer is nil.  Storing the model in the state cannot
    fail: the model's field tags are the schema's attribute names. *)
Definition Read (api : proxmox.API) (d : vmConfigDataSource)
  (req : datasource.ReadRequest) : outcome ReadResult :=
  match providerData d with
  | None => Panic NilPointerDereference
  | Some pd =>
      let config := datasource.Config req in
      let dg := diag.Append [] (datasource.ConfigDiags req) in
      if diag.HasError dg then returnNoState dg [] else
      match Filter config with
      | None =>
          returnNoState
            (diag.AddError dg "Filter Is Required"
               (diag.Text "You must specify a filter to retrieve the VM configuration."))
            []
      | Some filter =>
          if types.IsNull (NodeName filter) || types.IsUnknown (NodeName filter) then
            returnNoState
              (diag.AddError dg "Filter Node Name Is Required"
                 (diag.Text "You must specify a PVE cluster node name to retrieve the VM configuration."))
              []
          else
          let nodeName := types.ValueString (NodeName filter) in
          if types.IsNull (VMID filter) || types.IsUnknown (VMID filter) then
            returnNoState
              (diag.AddError dg "Filter VM ID Is Required"
                 (diag.Text "You must specify a VM ID to retrieve the VM configuration."))
              []
          else
          let vmID := types.ValueInt32 (VMID filter) in
          let calls := [proxmox.CallNode (client pd) nodeName] in
          nodeAnswer <- proxmox.Client_Node api (client pd) nodeName ;;
          match snd nodeAnswer with
          | Some err =>
              returnNoState
                (diag.AddError dg "Proxmox VE API: Failed to Locate Node"
                   (diag.Sprintf
                      ("Failed to locate the cluster node '%s':" ++ newlineTab ++ "%s")
                      [diag.OpString nodeName; diag.OpString err]))
                calls
          | None =>
              let node := fst nodeAnswer in
              let calls := calls ++ [proxmox.CallVirtualMachine node vmID] in
              vmAnswer <- proxmox.Node_VirtualMachine api node vmID ;;
              match snd vmAnswer with
              | Some err =>
                  returnNoState
                    (diag.AddError dg "Proxmox VE API: Failed to Retrieve VM"
                       (diag.Sprintf
                          ("Failed to retrieve the virtual machine with the ID '%d':"
                           ++ newlineTab ++ "%s")
                          [diag.OpInt vmID; diag.OpString err]))
                    calls
              | None =>
                  match fst vmAnswer with
                  | None => Panic NilPointerDereference
                  | Some vm =>
                      ifaces <-
                        match proxmox.Config vm with
                        | Some vmc => parseNets (proxmox.MergeNets vmc) dg []
                        | None => Ok []
                        end ;;
                      let state :=
                        {| Data := Some {| Name := types.StringValue (proxmox.Name vm);
                                           Node := types.StringValue (proxmox.VMNode vm);
                                           NetworkInterfaces := ifaces;
                                           Status := types.StringValue (proxmox.Status vm);
                                           DataVMID := VMID filter |};
                           Filter := Some filter |} in
                      if diag.HasError dg then returnNoState dg calls else
                      Ok ({| datasource.Diagnostics := dg; datasource.State := Some state |},
                          calls)
                  end
              end
          end
      end
  end.

(** ** The data source's own [Configure] *)

(** A value of type [any] handed over as [req.ProviderData]: a
    [*proxmoxveProviderData] (possibly a nil pointer), or a value of some
    other Go type, of which only the type's name matters. *)
Inductive any : Type :=
| ProviderDataPointer (data : option proxmoxveProviderData)
| OtherValue (goType : string).

Definition NewVMConfigDataSource : vmConfigDataSource := {| providerData := None |}.

(** [(d *vmConfigDataSource) Configure(ctx, req, resp)]: [providerData] is
    [req.ProviderData] ([None] is the nil interface), [dg] is
    [resp.Diagnostics]; the result is the data source and the diagnostics at
    return. *)
Definition DataSourceConfigure (d : vmConfigDataSource) (providerData : option any)
  (dg : diag.Diagnostics) : vmConfigDataSource * diag.Diagnostics :=
  match providerData with
  | None => (d, dg)
  | Some (ProviderDataPointer data) => ({| providerData := data |}, dg)
  | Some (OtherValue goType) =>
      (d, diag.AddError dg "Unexpected Data Source Configure Type"
            (diag.Sprintf
               "Expected *proxmoxveProviderData, got: %T. Please report this issue to the provider developers."
               [diag.OpString goType]))
  end.

(** * Specification-level vocabulary *)

(** The key and the value the parser reads off a pair: [kv[0]] and [kv[1]]. *)
Definition keyOf (pair : string) : string := nth 0 (strings.Split pair "=") "".
Definition valueOf (pair : string) : string := nth 1 (strings.Split pair "=") "".

Definition keyValues (config : string) : list (string * string) :=
  map (fun pair => (keyOf pair, valueOf pair)) (strings.Split config ",").

(** The trunk identifiers a [trunks] value decodes to: the elements that
    parse, in order. *)
Definition decodeTrunk (elem : string) : list types.Int32 :=
  match strconv.ParseInt10 elem 32 with
  | inl val => [types.Int32Value (int32 val)]
  | inr _ => []
  end.

Definition decodeTrunks (value : string) : list types.Int32 :=
  flat_map decodeTrunk (strings.Split value ";").

(** The pairs of a line all hold an ['=']. *)
Definition wellFormed (pairs : list string) : bool :=
  forallb (fun pair => strings.Contains pair "=") pairs.

(** What one pair does to the interface; the diagnostics play no part. *)
Definition ifaceStep (kv : string * string)
  (iface : vmConfigDataSourceNetworkInterfaceModel)
  : vmConfigDataSourceNetworkInterfaceModel :=
  fst (switchKey (fst kv) (snd kv) (iface, [])).

(** A field's update rule: the new content a pair gives the field, if any. *)
Definition whenKey {X : Type} (names : list string) (decode : string -> option X)
  (kv : string * string) : option X :=
  if strconv.strIn (fst kv) names then decode (snd kv) else None.

Definition verbatim (value : string) : option types.String :=
  Some (types.StringValue value).

Definition asBool (value : string) : option types.Bool :=
  match strconv.ParseBool value with
  | inl val => Some (types.BoolValue val)
  | inr _ => None
  end.

Definition asInt32 (value : string) : option types.Int32 :=
  match strconv.ParseInt10 value 32 with
  | inl val => Some (types.Int32Value (int32 val))
  | inr _ => None
  end.

Definition asTrunks (value : string) : option (option (list types.Int32)) :=
  Some (Some (decodeTrunks value)).

(** A pair's new content for a field, or else the content the field has. *)
Definition orKeep {X : Type} (new : option X) (old : X) : X :=
  match new with Some x => x | None => old end.

(** The content of a field after all pairs: that of the last pair that gives
    it one, else the initial content. *)
Definition lastUpdate {X : Type} (upd : string * string -> option X)
  (kvs : list (string * string)) (init : X) : X :=
  fold_left (fun acc kv => orKeep (upd kv) acc) kvs init.

(** The interface described field by field. *)
Definition fieldwise (config : string) : vmConfigDataSourceNetworkInterfaceModel :=
  let kvs := keyValues config in
  {| Bridge := lastUpdate (whenKey ["bridge"] verbatim) kvs types.Null;
     Firewall := lastUpdate (whenKey ["firewall"] asBool) kvs types.Null;
     HardwareAddress := lastUpdate (whenKey ["macaddr"; "virtio"] verbatim) kvs types.Null;
     LinkDown := lastUpdate (whenKey ["link_down"] asBool) kvs types.Null;
     Model := lastUpdate (whenKey ["model"] verbatim) kvs types.Null;
     MTU := lastUpdate (whenKey ["mtu"] asInt32) kvs types.Null;
     Queues := lastUpdate (whenKey ["queues"] asInt32) kvs types.Null;
     Rate := lastUpdate (whenKey ["rate"] asInt32) kvs types.Null;
     RawConfig := types.StringValue config;
     Tag := lastUpdate (whenKey ["tag"] asInt32) kvs types.Null;
     Trunks := lastUpdate (whenKey ["trunks"] asTrunks) kvs None |}.

(** The trunks clause of the population invariant read literally, for a given
    reading of "populated": the trunks list is populated exactly when a
    [trunks] pair is present and at least one of its elements parses. *)
Definition trunksPopulatedClaim (populated : option (list types.Int32) -> Prop)
  (config : string) : Prop :=
  forall dg iface dg',
    parseNetworkConfig config dg = Ok (iface, dg') ->
    (populated (Trunks iface) <->
     exists v elem n, In ("trunks", v) (keyValues config) /\
                      In elem (strings.Split v ";") /\
                      strconv.ParseInt10 elem 32 = inl n).

(** "Present and known". *)
Definition known {A : Type} (v : types.attr A) : bool :=
  match v with types.Value _ => true | _ => false end.

(** The summary of the first precondition that fails, in the order filter,
    node name, VM identifier. *)
Definition firstMissing (config : vmConfigDataSourceModel) : option string :=
  match Filter config with
  | None => Some "Filter Is Required"
  | Some filter =>
      if negb (known (NodeName filter)) then Some "Filter Node Name Is Required"
      else if negb (known (VMID filter)) then Some "Filter VM ID Is Required"
      else None
  end.

(** A remote side that knows every node and answers every VM lookup with the
    same record, whose identifier is 999 and whose slots are [nets]. *)
Definition exampleAPI (nets : list (string * string)) : proxmox.API :=
  {| proxmox.Client_Version := fun _ =>
       Ok (Some {| proxmox.Release := "8.2"; proxmox.RepoID := "abc";
                   proxmox.VersionText := "8.2.2" |}, None);
     proxmox.Client_Node := fun _ name => Ok (Some {| proxmox.NodeHandle := name |}, None);
     proxmox.Node_VirtualMachine := fun _ _ =>
       Ok (Some {| proxmox.Name := "web"; proxmox.VMNode := "pve1";
                   proxmox.Status := "running"; proxmox.VMID := 999;
                   proxmox.Config := Some {| proxmox.MergeNets := nets |} |}, None) |}.

(** A remote side on which the version request fails. *)
Definition unreachableAPI : proxmox.API :=
  {| proxmox.Client_Version := fun _ => Ok (None, Some "connection refused");
     proxmox.Client_Node := fun _ _ => Ok (None, Some "connection refused");
     proxmox.Node_VirtualMachine := fun _ _ => Ok (None, Some "connection refused") |}.

(** A remote side that answers every request with neither a result nor an
    error (as on a reply whose data is null). *)
Definition emptyAnswerAPI : proxmox.API :=
  {| proxmox.Client_Version := fun _ => Ok (None, None);
     proxmox.Client_Node := fun _ _ => Ok (None, None);
     proxmox.Node_VirtualMachine := fun _ _ => Ok (None, None) |}.

Definition exampleConfig : proxmoxveProviderModel :=
  {| APITokenID := types.StringValue "tf";
     APITokenSecret := types.StringValue "00000000-0000-0000-0000-000000000000";
     APITokenUsername := types.StringValue "root@pam";
     Endpoint := types.StringValue "https://pve1:8006";
     IgnoreUntrustedSSLCertificate := types.BoolValue true |}.

Definition exampleDataSource : vmConfigDataSource :=
  {| providerData := Some {| client := newClient exampleConfig;
                             endpoint := "https://pve1:8006";
                             provider := {| version := "dev" |} |} |}.

Definition lookup (nodeName : types.String) (vmID : types.Int32) : datasource.ReadRequest :=
  {| datasource.Config :=
       {| Data := None; Filter := Some {| NodeName := nodeName; VMID := vmID |} |};
     datasource.ConfigDiags := [] |}.

Inductive RequiredField : Type :=
| FieldAPITokenID
| FieldAPITokenSecret
| FieldAPITokenUsername
| FieldEndpoint.

Definition fieldPath (f : RequiredField) : string :=
  match f with
  | FieldAPITokenID => "api_token_id"
  | FieldAPITokenSecret => "api_token_secret"
  | FieldAPITokenUsername => "api_token_username"
  | FieldEndpoint => "endpoint"
  end.

Definition fieldValue (config : proxmoxveProviderModel) (f : RequiredField) : types.String :=
  match f with
  | FieldAPITokenID => APITokenID config
  | FieldAPITokenSecret => APITokenSecret config
  | FieldAPITokenUsername => APITokenUsername config
  | FieldEndpoint => Endpoint config
  end.

Definition unknownSummary (f : RequiredField) : string :=
  match f with
  | FieldAPITokenID => "Unknown Proxmox VE API Token ID"
  | FieldAPITokenSecret => "Unknown Proxmox VE API Token Secret"
  | FieldAPITokenUsername => "Unknown Proxmox VE API Token Username"
  | FieldEndpoint => "Unknown Proxmox VE Endpoint"
  end.

Definition missingSummary (f : RequiredField) : string :=
  match f with
  | FieldAPITokenID => "Missing Proxmox VE API Token ID"
  | FieldAPITokenSecret => "Missing Proxmox VE API Token Secret"
  | FieldAPITokenUsername => "Missing Proxmox VE API Token Username"
  | FieldEndpoint => "Missing Proxmox VE Endpoint"
  end.

(** The summaries of the errors attributed to a field. *)
Definition errorsOf (f : RequiredField) (dgs : diag.Diagnostics) : list string :=
  map diag.summary (diag.ErrorsAt (fieldPath f) dgs).

(** Non-empty and known. *)
Definition supplied (v : types.String) : Prop :=
  exists s, v = types.StringValue s /\ s <> "".

Definition when {X : Type} (b : bool) (x : X) : list X := if b then [x] else [].

Definition configureRequest (config : proxmoxveProviderModel) : provider.ConfigureRequest :=
  {| provider.Config := config; provider.ConfigDiags := [] |}.

(** The endpoint is unknown and the token secret is empty. *)
Definition mixedConfig : proxmoxveProviderModel :=
  {| APITokenID := types.StringValue "tf";
     APITokenSecret := types.StringValue "";
     APITokenUsername := types.StringValue "root@pam";
     Endpoint := types.Unknown;
     IgnoreUntrustedSSLCertificate := types.Null |}.

(** The token ID and the token secret are empty. *)
Definition twoEmptyConfig : proxmoxveProviderModel :=
  {| APITokenID := types.StringValue "";
     APITokenSecret := types.Null;
     APITokenUsername := types.StringValue "root@pam";
     Endpoint := types.StringValue "https://pve1:8006";
     IgnoreUntrustedSSLCertificate := types.Null |}.

(** What [append1] does to the error diagnostics of a collection, in terms
    of these alone. *)
Definition addErr (errs : list diag.Diagnostic) (d : diag.Diagnostic)
  : list diag.Diagnostic :=
  if diag.Contains errs d then errs else errs ++ [d].

(** The 32-bit signed range. *)
Definition inInt32 (z : Z) : Prop := (- 2 ^ 31 <= z < 2 ^ 31)%Z.

(** A string of decimal digits, and the number it denotes after the digits
    already read ([acc]). *)
Fixpoint allDigits (s : string) : bool :=
  match s with
  | EmptyString => true
  | String c rest =>
      (48 <=? strconv.byte c)%Z && (strconv.byte c <=? 57)%Z && allDigits rest
  end.

Fixpoint decimalValue (s : string) (acc : Z) : Z :=
  match s with
  | EmptyString => acc
  | String c rest => decimalValue rest (acc * 10 + (strconv.byte c - 48))%Z
  end.

(** The integer fields of an interface. *)
Definition integerFields (iface : vmConfigDataSourceNetworkInterfaceModel)
  : list types.Int32 :=
  [MTU iface; Queues iface; Rate iface; Tag iface].

(** The keys read as 32-bit integers, each with the field it fills. *)
Definition integerKeys
  : list (string * (vmConfigDataSourceNetworkInterfaceModel -> types.Int32)) :=
  [("mtu", MTU); ("queues", Queues); ("rate", Rate); ("tag", Tag)].

(** The keys read as booleans and as integers. *)
Definition boolKeys : list string := ["firewall"; "link_down"].
Definition intKeys : list string := ["mtu"; "queues"; "rate"; "tag"].

(** The diagnostic of a failing coercion for [key]. *)
Definition unexpected (key : string) (err : strconv.NumError) : diag.Diagnostic :=
  diag.NewErrorDiagnostic "Unexpected VM Config Value"
    (diag.Sprintf
       ("The value for the '" ++ key ++ "' property for the network interface was not expected: %s")
       [diag.OpNumError err]).

(** Pair [kv] holds a value, or a trunks element, that does not coerce, and
    [d] is the diagnostic for it. *)
Definition rejected (kv : string * string) (d : diag.Diagnostic) : Prop :=
  (In (fst kv) boolKeys /\
   exists err, strconv.ParseBool (snd kv) = inr err /\ d = unexpected (fst kv) err) \/
  (In (fst kv) intKeys /\
   exists err, strconv.ParseInt10 (snd kv) 32 = inr err /\ d = unexpected (fst kv) err) \/
  (fst kv = "trunks" /\
   exists elem err, In elem (strings.Split (snd kv) ";") /\
                    strconv.ParseInt10 elem 32 = inr err /\ d = unexpected "trunks" err).

(** The diagnostics one pair raises, in order. *)
Definition failedTrunk (elem : string) : list diag.Diagnostic :=
  match strconv.ParseInt10 elem 32 with
  | inr err => [unexpected "trunks" err]
  | inl _ => []
  end.

Definition failures (kv : string * string) : list diag.Diagnostic :=
  if strconv.strIn (fst kv) boolKeys then
    match strconv.ParseBool (snd kv) with
    | inr err => [unexpected (fst kv) err]
    | inl _ => []
    end
  else if strconv.strIn (fst kv) intKeys then
    match strconv.ParseInt10 (snd kv) 32 with
    | inr err => [unexpected (fst kv) err]
    | inl _ => []
    end
  else if fst kv =? "trunks" then flat_map failedTrunk (strings.Split (snd kv) ";")
  else [].

(** Writing a line: [key=value] pairs joined by commas. *)
Definition pairText (kv : string * string) : string :=
  (fst kv ++ "=" ++ snd kv)%string.

Fixpoint joinLine (kvs : list (string * string)) : string :=
  match kvs with
  | [] => ""
  | kv :: rest =>
      match rest with
      | [] => pairText kv
      | _ :: _ => (pairText kv ++ "," ++ joinLine rest)%string
      end
  end.

(** Text that holds neither [','] nor ['=']. *)
Definition plain (s : string) : bool :=
  negb (strings.Contains s ",") && negb (strings.Contains s "=").

Definition plainPair (kv : string * string) : bool :=
  plain (fst kv) && plain (snd kv).



(** The keys the parser knows. *)
Definition recognised (key : string) : bool :=
  strconv.strIn key
    ["model"; "bridge"; "firewall"; "link_down"; "macaddr"; "virtio";
     "mtu"; "queues"; "rate"; "tag"; "trunks"].


(** Two interfaces agree on every field read from the pairs (all but
    [raw_config]). *)
Definition sameFields (a b : vmConfigDataSourceNetworkInterfaceModel) : Prop :=
  Bridge a = Bridge b /\ Firewall a = Firewall b /\
  HardwareAddress a = HardwareAddress b /\ LinkDown a = LinkDown b /\
  Model a = Model b /\ MTU a = MTU b /\ Queues a = Queues b /\ Rate a = Rate b /\
  Tag a = Tag b /\ Trunks a = Trunks b.

Definition recognisedPair (kv : string * string) : bool := recognised (fst kv).

(** The raw lines the lookup parses: those of the slots, in iteration order,
    that are not empty. *)
Definition linesToParse (nets : list (string * string)) : list string :=
  filter (fun line => negb (line =? "")) (map snd nets).

(** Every pair of every line holds an ['=']. *)
Definition allWellFormed (lines : list string) : bool :=
  forallb (fun line => wellFormed (strings.Split line ",")) lines.

(** The handle a successful [Configure] publishes. *)
Definition handle (p : proxmoxveProvider) (config : proxmoxveProviderModel)
  : proxmoxveProviderData :=
  {| client := newClient config;
     endpoint := types.ValueString (Endpoint config);
     provider := p |}.

(** The state a successful lookup stores. *)
Definition lookupState (filter : vmConfigDataSourceFilterModel)
  (vm : proxmox.VirtualMachine)
  (ifaces : list vmConfigDataSourceNetworkInterfaceModel) : vmConfigDataSourceModel :=
  {| Data := Some {| Name := types.StringValue (proxmox.Name vm);
                     Node := types.StringValue (proxmox.VMNode vm);
                     NetworkInterfaces := ifaces;
                     Status := types.StringValue (proxmox.Status vm);
                     DataVMID := VMID filter |};
     Filter := Some filter |}.

(** The lines the lookup parses for a VM record: none when the record has no
    configuration object. *)
Definition slotLines (vm : proxmox.VirtualMachine) : list string :=
  match proxmox.Config vm with
  | Some vmc => linesToParse (proxmox.MergeNets vmc)
  | None => []
  end.

(** A usable request: the configuration decoded without error and the filter
    gives a known node name and a known VM identifier. *)
Definition validLookup (req : datasource.ReadRequest) (name : string) (vmID : Z) : Prop :=
  diag.HasError (datasource.ConfigDiags req) = false /\
  exists filter,
    Filter (datasource.Config req) = Some filter /\
    NodeName filter = types.Value name /\
    VMID filter = types.Value vmID.

(** * Lemmas on [strings.Split] *)

Section SplitFacts.

Variable sep : ascii.

Lemma Split_not_nil (s : string) : strings.Split s sep <> [].
Proof.
  destruct s as [|c rest]; simpl; [discriminate|].
  destruct (Ascii.eqb c sep); [discriminate|].
  destruct (strings.Split rest sep); discriminate.
Qed.

Lemma Split_without_sep (s : string) :
  strings.Contains s sep = false -> strings.Split s sep = [s].
Proof.
  induction s as [|c rest IH]; simpl; intros H; [reflexivity|].
  apply orb_false_iff in H as [Hc Hrest].
  rewrite Hc, (IH Hrest). reflexivity.
Qed.

Lemma Split_at_first_sep (k rest : string) :
  strings.Contains k sep = false ->
  strings.Split (k ++ String sep rest)%string sep = k :: strings.Split rest sep.
Proof.
  induction k as [|c k IH]; simpl; intros H.
  - rewrite Ascii.eqb_refl. reflexivity.
  - apply orb_false_iff in H as [Hc Hk].
    rewrite Hc, (IH Hk). reflexivity.
Qed.

Lemma Contains_first_sep (s : string) :
  strings.Contains s sep = true ->
  exists k rest, s = (k ++ String sep rest)%string /\ strings.Contains k sep = false.
Proof.
  induction s as [|c s IH]; simpl; intros H; [discriminate|].
  destruct (Ascii.eqb c sep) eqn:Hc.
  - apply Ascii.eqb_eq in Hc. subst c.
    exists EmptyString, s. split; reflexivity.
  - simpl in H. destruct (IH H) as (k & rest & -> & Hk).
    exists (String c k), rest. split; [reflexivity|].
    simpl. rewrite Hc, Hk. reflexivity.
Qed.

Lemma Split_with_sep (s : string) :
  strings.Contains s sep = true ->
  exists k v more, strings.Split s sep = k :: v :: more.
Proof.
  intros H. destruct (Contains_first_sep s H) as (k & rest & -> & Hk).
  rewrite (Split_at_first_sep _ _ Hk).
  destruct (strings.Split rest sep) as [|v more] eqn:E.
  - exfalso. exact (Split_not_nil _ E).
  - exists k, v, more. reflexivity.
Qed.

End SplitFacts.

(** * Lemmas on the loop body *)

Lemma parsePair_with_eq (pair : string) (st : ifaceState) :
  strings.Contains pair "=" = true ->
  parsePair pair st = Ok (switchKey (keyOf pair) (valueOf pair) st).
Proof.
  intros H. unfold parsePair, keyOf, valueOf.
  destruct (Split_with_sep _ _ H) as (k & v & more & ->). reflexivity.
Qed.

Lemma parsePair_without_eq (pair : string) (st : ifaceState) :
  strings.Contains pair "=" = false ->
  parsePair pair st = Panic (IndexOutOfRange 1 1).
Proof.
  intros H. unfold parsePair. rewrite (Split_without_sep _ _ H). reflexivity.
Qed.

Lemma forPairs_wellFormed (pairs : list string) (st : ifaceState) :
  wellFormed pairs = true ->
  forPairs pairs st =
  Ok (fold_left (fun s pair => switchKey (keyOf pair) (valueOf pair) s) pairs st).
Proof.
  revert st. induction pairs as [|p rest IH]; simpl; intros st H; [reflexivity|].
  apply andb_true_iff in H as [Hp Hrest].
  rewrite (parsePair_with_eq _ _ Hp). simpl. apply IH, Hrest.
Qed.

Lemma forPairs_illFormed (pairs : list string) (st : ifaceState) :
  wellFormed pairs = false ->
  forPairs pairs st = Panic (IndexOutOfRange 1 1).
Proof.
  revert st. induction pairs as [|p rest IH]; simpl; intros st H; [discriminate|].
  destruct (strings.Contains p "=") eqn:Hp; simpl in H.
  - rewrite (parsePair_with_eq _ _ Hp). simpl. apply IH, H.
  - rewrite (parsePair_without_eq _ _ Hp). reflexivity.
Qed.

Lemma wellFormed_false_iff (pairs : list string) :
  wellFormed pairs = false <->
  exists pair, In pair pairs /\ strings.Contains pair "=" = false.
Proof.
  unfold wellFormed. split.
  - intros H. induction pairs as [|p rest IH]; simpl in *; [discriminate|].
    destruct (strings.Contains p "=") eqn:Hp.
    + destruct (IH H) as (q & Hin & Hq). exists q. auto.
    + exists p. auto.
  - intros (q & Hin & Hq).
    destruct (forallb _ pairs) eqn:E; [|reflexivity].
    rewrite forallb_forall in E. rewrite (E q Hin) in Hq. discriminate.
Qed.

(** * The interface as a function of the line's key/value pairs *)

Lemma trunksLoop_trunks (elems : list string) (trunks : list types.Int32)
  (dg : diag.Diagnostics) :
  fst (trunksLoop elems trunks dg) = trunks ++ flat_map decodeTrunk elems.
Proof.
  revert trunks dg. induction elems as [|e rest IH]; simpl; intros trunks dg.
  - symmetry. apply app_nil_r.
  - unfold decodeTrunk at 1. destruct (strconv.ParseInt10 e 32) as [val|err].
    + rewrite IH, <- app_assoc. reflexivity.
    + apply IH.
Qed.

Ltac by_key k :=
  repeat match goal with
    | |- context [String.eqb k ?s] =>
        destruct (String.eqb_spec k s); [subst k; simpl|]
    end.

Lemma switchKey_iface (key value : string) (st : ifaceState) :
  fst (switchKey key value st) = ifaceStep (key, value) (fst st).
Proof.
  destruct st as [iface dg]. unfold ifaceStep, switchKey. simpl.
  by_key key; try reflexivity;
    try (destruct (strconv.ParseBool value); reflexivity);
    try (destruct (strconv.ParseInt10 value 32); reflexivity).
  pose proof (trunksLoop_trunks (strings.Split value ";") [] dg) as H1.
  pose proof (trunksLoop_trunks (strings.Split value ";") [] []) as H2.
  destruct (trunksLoop _ [] dg), (trunksLoop _ [] []). simpl in *.
  rewrite H1, H2. reflexivity.
Qed.

Lemma forPairs_iface (pairs : list string) (st : ifaceState) :
  fst (fold_left (fun s pair => switchKey (keyOf pair) (valueOf pair) s) pairs st) =
  fold_left (fun i kv => ifaceStep kv i)
    (map (fun pair => (keyOf pair, valueOf pair)) pairs) (fst st).
Proof.
  revert st. induction pairs as [|p rest IH]; simpl; intros st; [reflexivity|].
  rewrite IH, switchKey_iface. reflexivity.
Qed.

Ltac field_step :=
  intros [key value] iface;
  unfold ifaceStep, switchKey, whenKey, strconv.strIn, orKeep, verbatim, asBool,
    asInt32, asTrunks, decodeTrunks;
  simpl;
  by_key key; try reflexivity;
  try (destruct (strconv.ParseBool value); reflexivity);
  try (destruct (strconv.ParseInt10 value 32); reflexivity);
  try (pose proof (trunksLoop_trunks (strings.Split value ";") [] []) as Htr;
       destruct (trunksLoop _ [] []); simpl in *; rewrite ?Htr; reflexivity).

Lemma step_Bridge : forall kv i,
  Bridge (ifaceStep kv i) = orKeep (whenKey ["bridge"] verbatim kv) (Bridge i).
Proof. field_step. Qed.

Lemma step_Firewall : forall kv i,
  Firewall (ifaceStep kv i) = orKeep (whenKey ["firewall"] asBool kv) (Firewall i).
Proof. field_step. Qed.

Lemma step_HardwareAddress : forall kv i,
  HardwareAddress (ifaceStep kv i) =
  orKeep (whenKey ["macaddr"; "virtio"] verbatim kv) (HardwareAddress i).
Proof. field_step. Qed.

Lemma step_LinkDown : forall kv i,
  LinkDown (ifaceStep kv i) = orKeep (whenKey ["link_down"] asBool kv) (LinkDown i).
Proof. field_step. Qed.

Lemma step_Model : forall kv i,
  Model (ifaceStep kv i) = orKeep (whenKey ["model"] verbatim kv) (Model i).
Proof. field_step. Qed.

Lemma step_MTU : forall kv i,
  MTU (ifaceStep kv i) = orKeep (whenKey ["mtu"] asInt32 kv) (MTU i).
Proof. field_step. Qed.

Lemma step_Queues : forall kv i,
  Queues (ifaceStep kv i) = orKeep (whenKey ["queues"] asInt32 kv) (Queues i).
Proof. field_step. Qed.

Lemma step_Rate : forall kv i,
  Rate (ifaceStep kv i) = orKeep (whenKey ["rate"] asInt32 kv) (Rate i).
Proof. field_step. Qed.

Lemma step_Tag : forall kv i,
  Tag (ifaceStep kv i) = orKeep (whenKey ["tag"] asInt32 kv) (Tag i).
Proof. field_step. Qed.

Lemma step_Trunks : forall kv i,
  Trunks (ifaceStep kv i) = orKeep (whenKey ["trunks"] asTrunks kv) (Trunks i).
Proof. field_step. Qed.

Lemma step_RawConfig : forall kv i, RawConfig (ifaceStep kv i) = RawConfig i.
Proof. field_step. Qed.

Section FieldOfFold.

Context {X : Type}.
Variable proj : vmConfigDataSourceNetworkInterfaceModel -> X.
Variable upd : string * string -> option X.
Hypothesis step : forall kv i, proj (ifaceStep kv i) = orKeep (upd kv) (proj i).

Lemma field_of_fold (kvs : list (string * string))
  (i : vmConfigDataSourceNetworkInterfaceModel) :
  proj (fold_left (fun i kv => ifaceStep kv i) kvs i) = lastUpdate upd kvs (proj i).
Proof.
  revert i. induction kvs as [|kv rest IH]; simpl; intros i; [reflexivity|].
  rewrite IH, step. reflexivity.
Qed.

End FieldOfFold.

Section LastUpdate.

Context {X : Type}.
Variable upd : string * string -> option X.

Lemma lastUpdate_cases (kvs : list (string * string)) (init x : X) :
  lastUpdate upd kvs init = x ->
  (x = init /\ forall kv, In kv kvs -> upd kv = None) \/
  (exists kv, In kv kvs /\ upd kv = Some x).
Proof.
  revert init. induction kvs as [|kv rest IH]; simpl; intros init H.
  - left. split; [congruence | intros ? []].
  - destruct (IH _ H) as [[Hx Hnone] | (kv' & Hin & Hkv')].
    + destruct (upd kv) as [y|] eqn:E; cbn [orKeep] in Hx.
      * right. exists kv. split; [auto | congruence].
      * left. split; [exact Hx|]. intros kv' [<- | Hin]; auto.
    + right. exists kv'. auto.
Qed.

Lemma lastUpdate_hit (kvs : list (string * string)) (init : X) (kv : string * string) :
  In kv kvs -> upd kv <> None ->
  exists kv', In kv' kvs /\ upd kv' = Some (lastUpdate upd kvs init).
Proof.
  intros Hin Hsome.
  destruct (lastUpdate_cases kvs init _ eq_refl) as [[_ Hnone] | H]; [|exact H].
  elim Hsome. auto.
Qed.

End LastUpdate.

Lemma parseNetworkConfig_outcome (config : string) (dg : diag.Diagnostics) :
  if wellFormed (strings.Split config ",")
  then exists dg', parseNetworkConfig config dg = Ok (fieldwise config, dg')
  else parseNetworkConfig config dg = Panic (IndexOutOfRange 1 1).
Proof.
  unfold parseNetworkConfig.
  destruct (wellFormed (strings.Split config ",")) eqn:W.
  - rewrite (forPairs_wellFormed _ _ W).
    match goal with |- context [fold_left ?f ?l ?s] => set (final := fold_left f l s) end.
    exists (snd final).
    assert (fst final = fieldwise config) as <-; [|destruct final; reflexivity].
    unfold final. rewrite forPairs_iface. fold (keyValues config). simpl.
    match goal with |- ?lhs = _ => set (i := lhs) end.
    transitivity {| Bridge := Bridge i; Firewall := Firewall i;
                    HardwareAddress := HardwareAddress i; LinkDown := LinkDown i;
                    Model := Model i; MTU := MTU i; Queues := Queues i; Rate := Rate i;
                    RawConfig := RawConfig i; Tag := Tag i; Trunks := Trunks i |};
      [destruct i; reflexivity|].
    unfold fieldwise, i.
    rewrite (field_of_fold _ _ step_Bridge), (field_of_fold _ _ step_Firewall),
      (field_of_fold _ _ step_HardwareAddress), (field_of_fold _ _ step_LinkDown),
      (field_of_fold _ _ step_Model), (field_of_fold _ _ step_MTU),
      (field_of_fold _ _ step_Queues), (field_of_fold _ _ step_Rate),
      (field_of_fold _ _ step_Tag), (field_of_fold _ _ step_Trunks).
    rewrite (field_of_fold RawConfig (fun _ => None) step_RawConfig).
    simpl. f_equal.
    clear. generalize (types.StringValue config).
    induction (keyValues config); simpl; auto.
  - apply forPairs_illFormed, W.
Qed.

(** * Lemmas on the diagnostics collection *)

Module diagFacts.
Import diag.

Lemma Equal_true (a b : Diagnostic) : Equal a b = true <-> a = b.
Proof. unfold Equal. destruct (Diagnostic_eq_dec a b); split; congruence. Qed.

Lemma Contains_In (diags : Diagnostics) (d : Diagnostic) :
  Contains diags d = true <-> In d diags.
Proof.
  unfold Contains. rewrite existsb_exists. split.
  - intros (x & Hin & Heq). apply Equal_true in Heq. congruence.
  - intros Hin. exists d. split; [exact Hin | apply Equal_true; reflexivity].
Qed.

Lemma Contains_Errors (diags : Diagnostics) (d : Diagnostic) :
  isError d = true -> Contains (Errors diags) d = Contains diags d.
Proof.
  intros Hd. apply eq_true_iff_eq. rewrite !Contains_In. unfold Errors.
  rewrite filter_In. tauto.
Qed.

Lemma Errors_append1 (diags : Diagnostics) (d : Diagnostic) :
  isError d = true -> Errors (append1 diags d) = addErr (Errors diags) d.
Proof.
  intros Hd. unfold append1, addErr. rewrite (Contains_Errors _ _ Hd).
  destruct (Contains diags d); [reflexivity|].
  unfold Errors. rewrite filter_app. simpl. rewrite Hd. reflexivity.
Qed.

Lemma Errors_AddError (diags : Diagnostics) (s : string) (t : Detail) :
  Errors (AddError diags s t) = addErr (Errors diags) (NewErrorDiagnostic s t).
Proof. apply Errors_append1. reflexivity. Qed.

Lemma Errors_AddAttributeError (diags : Diagnostics) (p s : string) (t : Detail) :
  Errors (AddAttributeError diags p s t) =
  addErr (Errors diags) (NewAttributeErrorDiagnostic p s t).
Proof. apply Errors_append1. reflexivity. Qed.

Lemma HasError_Errors (diags : Diagnostics) :
  HasError diags = match Errors diags with [] => false | _ :: _ => true end.
Proof.
  unfold HasError, Errors. induction diags as [|d rest IH]; simpl; [reflexivity|].
  destruct (isError d); simpl; [reflexivity | exact IH].
Qed.

Lemma no_Errors (diags : Diagnostics) : HasError diags = false <-> Errors diags = [].
Proof. rewrite HasError_Errors. destruct (Errors diags); split; congruence. Qed.

Lemma HasError_append1 (diags : Diagnostics) (d : Diagnostic) :
  HasError (append1 diags d) = HasError diags || isError d.
Proof.
  unfold append1. destruct (Contains diags d) eqn:C.
  - apply Contains_In in C. destruct (isError d) eqn:E; [|now rewrite orb_false_r].
    rewrite orb_true_r. unfold HasError. apply existsb_exists. eauto.
  - unfold HasError. rewrite existsb_app. simpl. now rewrite orb_false_r.
Qed.

Lemma HasError_Append (diags : Diagnostics) (new : list Diagnostic) :
  HasError (Append diags new) = HasError diags || HasError new.
Proof.
  unfold Append. revert diags. induction new as [|d rest IH]; simpl; intros diags.
  - now rewrite orb_false_r.
  - rewrite IH, HasError_append1, orb_assoc. reflexivity.
Qed.

Lemma Errors_decoded (new : list Diagnostic) :
  HasError new = false -> Errors (Append [] new) = [].
Proof. intros H. apply no_Errors. rewrite HasError_Append. exact H. Qed.

End diagFacts.

(** * Population of the optional fields *)

Lemma strIn_In (s : string) (names : list string) :
  strconv.strIn s names = true <-> In s names.
Proof.
  unfold strconv.strIn. rewrite existsb_exists. split.
  - intros (x & Hin & Heq). apply String.eqb_eq in Heq. congruence.
  - intros Hin. exists s. split; [exact Hin | apply String.eqb_refl].
Qed.

Lemma populated_iff {X : Type} (names : list string) (decode : string -> option X)
  (kvs : list (string * string)) (init : X) :
  (forall v, decode v <> Some init) ->
  lastUpdate (whenKey names decode) kvs init <> init <->
  exists k v, In (k, v) kvs /\ In k names /\ decode v <> None.
Proof.
  intros Hdecode. split.
  - intros Hne.
    destruct (lastUpdate_cases (whenKey names decode) kvs init _ eq_refl)
      as [[Heq _] | ([k v] & Hin & Hkv)]; [contradiction|].
    exists k, v. unfold whenKey in Hkv. cbn [fst snd] in Hkv.
    destruct (strconv.strIn k names) eqn:Hk; [|discriminate Hkv].
    apply strIn_In in Hk. repeat split; auto. congruence.
  - intros (k & v & Hin & Hk & Hv).
    destruct (lastUpdate_hit (whenKey names decode) kvs init (k, v) Hin)
      as ([k' v'] & _ & Hkv').
    + unfold whenKey. cbn [fst snd]. apply strIn_In in Hk. rewrite Hk. exact Hv.
    + intros Heq. rewrite Heq in Hkv'. unfold whenKey in Hkv'. cbn [fst snd] in Hkv'.
      destruct (strconv.strIn k' names); [|discriminate Hkv'].
      exact (Hdecode _ Hkv').
Qed.

Lemma verbatim_populated (kvs : list (string * string)) (names : list string) :
  lastUpdate (whenKey names verbatim) kvs types.Null <> types.Null <->
  exists k v, In (k, v) kvs /\ In k names.
Proof.
  rewrite populated_iff by (unfold verbatim; discriminate).
  split; intros (k & v & H); exists k, v; intuition discriminate.
Qed.

Lemma asBool_populated (kvs : list (string * string)) (name : string) :
  lastUpdate (whenKey [name] asBool) kvs types.Null <> types.Null <->
  exists v b, In (name, v) kvs /\ strconv.ParseBool v = inl b.
Proof.
  rewrite populated_iff
    by (intros v; unfold asBool; destruct (strconv.ParseBool v); discriminate).
  unfold asBool. split.
  - intros (k & v & Hin & [<- | []] & Hv).
    destruct (strconv.ParseBool v) as [b|] eqn:E; [|congruence]. eauto.
  - intros (v & b & Hin & E). exists name, v. rewrite E.
    repeat split; simpl; auto. discriminate.
Qed.

Lemma asInt32_populated (kvs : list (string * string)) (name : string) :
  lastUpdate (whenKey [name] asInt32) kvs types.Null <> types.Null <->
  exists v n, In (name, v) kvs /\ strconv.ParseInt10 v 32 = inl n.
Proof.
  rewrite populated_iff
    by (intros v; unfold asInt32; destruct (strconv.ParseInt10 v 32); discriminate).
  unfold asInt32. split.
  - intros (k & v & Hin & [<- | []] & Hv).
    destruct (strconv.ParseInt10 v 32) as [n|] eqn:E; [|congruence]. eauto.
  - intros (v & n & Hin & E). exists name, v. rewrite E.
    repeat split; simpl; auto. discriminate.
Qed.

Lemma asTrunks_populated (kvs : list (string * string)) :
  lastUpdate (whenKey ["trunks"] asTrunks) kvs None <> None <->
  exists v, In ("trunks", v) kvs.
Proof.
  rewrite populated_iff by (unfold asTrunks; discriminate).
  split.
  - intros (k & v & Hin & [<- | []] & _). eauto.
  - intros (v & Hin). exists "trunks", v. repeat split; simpl; auto. discriminate.
Qed.

Lemma asTrunks_content (kvs : list (string * string)) (trunks : list types.Int32) :
  lastUpdate (whenKey ["trunks"] asTrunks) kvs None = Some trunks ->
  exists v, In ("trunks", v) kvs /\ trunks = decodeTrunks v.
Proof.
  intros H.
  destruct (lastUpdate_cases _ kvs None _ H) as [[Heq _] | ([k v] & Hin & Hkv)];
    [discriminate Heq|].
  unfold whenKey, asTrunks in Hkv. cbn [fst snd] in Hkv.
  destruct (strconv.strIn k ["trunks"]) eqn:Hk; [|discriminate Hkv].
  apply strIn_In in Hk. destruct Hk as [<- | []].
  exists v. split; [exact Hin | congruence].
Qed.

(** * The network-interface line parser: claims *)

Lemma append_empty_r (s : string) : (s ++ "")%string = s.
Proof. induction s as [|c s IH]; simpl; [reflexivity | now rewrite IH]. Qed.

(** C3 as the claim states it fails: the value bound for [bridge=a=b] is
    [a], not the whole remaining text [a=b]. *)
Lemma value_stops_at_second_eq :
  exists iface dg,
    parseNetworkConfig "bridge=a=b" [] = Ok (iface, dg) /\
    valueOf "bridge=a=b" = "a" /\
    Bridge iface = types.StringValue "a" /\
    Bridge iface <> types.StringValue "a=b".
Proof.
  eexists; eexists. split; [vm_compute; reflexivity|].
  split; [reflexivity|]. split; [reflexivity | discriminate].
Qed.

(** C3 (amended): a pair is split on every ['=']; the key is the text before
    the first ['='] and the value is the text between the first ['='] and the
    second one, or up to the end of the pair when there is no second one.
    Whatever follows a second ['='] is not part of the value. *)
Theorem parsePair_key_value (k v tail : string) (st : ifaceState) :
  strings.Contains k "=" = false ->
  strings.Contains v "=" = false ->
  tail = "" \/ (exists t, tail = String "=" t) ->
  let pair := (k ++ "=" ++ v ++ tail)%string in
  keyOf pair = k /\ valueOf pair = v /\ parsePair pair st = Ok (switchKey k v st).
Proof.
  intros Hk Hv Htail pair.
  assert (exists more, strings.Split pair "=" = k :: v :: more) as (more & E).
  { unfold pair. change ("=" ++ v ++ tail)%string with (String "=" (v ++ tail)).
    rewrite (Split_at_first_sep _ _ _ Hk).
    destruct Htail as [-> | (t & ->)].
    - rewrite append_empty_r, (Split_without_sep _ _ Hv). eauto.
    - rewrite (Split_at_first_sep _ _ _ Hv). eauto. }
  unfold keyOf, valueOf, parsePair. rewrite E. auto.
Qed.

Lemma parsePair_key_value_witness :
  strings.Contains "bridge" "=" = false /\
  strings.Contains "a" "=" = false /\
  keyOf "bridge=a=b" = "bridge" /\ valueOf "bridge=a=b" = "a" /\
  parsePair "bridge=a=b" (fieldwise "", []) = Ok (switchKey "bridge" "a" (fieldwise "", [])).
Proof.
  split; [reflexivity|]. split; [reflexivity|].
  apply (parsePair_key_value "bridge" "a" "=b" (fieldwise "", []));
    [reflexivity | reflexivity | right; eexists; reflexivity].
Defined.

(** C4: a line with a comma-separated pair that holds no ['='] makes the
    parser fault: reading [kv[1]] of the one-element split is an index out of
    range, and no interface or diagnostic is produced. *)
Theorem parse_faults_without_eq (config : string) (dg : diag.Diagnostics) :
  (exists pair, In pair (strings.Split config ",") /\ strings.Contains pair "=" = false) ->
  parseNetworkConfig config dg = Panic (IndexOutOfRange 1 1).
Proof.
  intros H. apply wellFormed_false_iff in H.
  pose proof (parseNetworkConfig_outcome config dg) as O.
  rewrite H in O. exact O.
Qed.

Lemma parse_faults_without_eq_witness :
  parseNetworkConfig "bridge=vmbr0,firewall" [] = Panic (IndexOutOfRange 1 1).
Proof.
  apply (parse_faults_without_eq "bridge=vmbr0,firewall" []).
  exists "firewall". split; [simpl; auto | reflexivity].
Defined.

(** C9: for a non-empty line, the interface the parser returns carries the
    line verbatim in [raw_config], whether or not the values coerce; the
    parser returns an interface exactly on the lines whose pairs all hold an
    ['='], and faults on the others (C4). *)
Theorem raw_config_verbatim (config : string) (dg : diag.Diagnostics) :
  config <> "" ->
  (forall iface dg', parseNetworkConfig config dg = Ok (iface, dg') ->
     RawConfig iface = types.StringValue config) /\
  (wellFormed (strings.Split config ",") = true ->
     exists iface dg', parseNetworkConfig config dg = Ok (iface, dg') /\
                       RawConfig iface = types.StringValue config).
Proof.
  intros _. pose proof (parseNetworkConfig_outcome config dg) as O.
  destruct (wellFormed (strings.Split config ",")).
  - destruct O as (dg1 & O). split.
    + intros iface dg' H. rewrite O in H. injection H as <- _. reflexivity.
    + intros _. exists (fieldwise config), dg1. split; [exact O | reflexivity].
  - split; [|discriminate]. intros iface dg' H. rewrite O in H. discriminate.
Qed.

Lemma raw_config_verbatim_witness :
  exists iface dg',
    parseNetworkConfig "bridge=vmbr0,firewall=x" [] = Ok (iface, dg') /\
    RawConfig iface = types.StringValue "bridge=vmbr0,firewall=x".
Proof.
  apply (raw_config_verbatim "bridge=vmbr0,firewall=x" []);
    [discriminate | reflexivity].
Defined.

(** C5 as the claim states it fails.  On [trunks=x] the list is set (to the
    empty list) although no element parses; on [trunks=1,trunks=x] the list
    is empty although an element of a [trunks] pair parses.  So the clause
    fails whether "populated" means set or non-empty.  Likewise on
    [mtu=1500,mtu=x] the failing pair does not leave [mtu] unset. *)
Lemma trunks_populated_without_parsed_element :
  ~ trunksPopulatedClaim (fun t => t <> None) "trunks=x" /\
  ~ trunksPopulatedClaim (fun t => exists x l, t = Some (x :: l)) "trunks=1,trunks=x" /\
  (exists iface dg, parseNetworkConfig "mtu=1500,mtu=x" [] = Ok (iface, dg) /\
                    asInt32 "x" = None /\ MTU iface = types.Int32Value 1500).
Proof.
  split; [|split].
  - intros H.
    destruct (H [] (fieldwise "trunks=x") _ ltac:(vm_compute; reflexivity)) as [H1 _].
    destruct H1 as (v & elem & n & Hv & He & Hn); [discriminate|].
    destruct Hv as [Hv | []]. injection Hv as <-.
    destruct He as [<- | []]. discriminate Hn.
  - intros H.
    destruct (H [] (fieldwise "trunks=1,trunks=x") _ ltac:(vm_compute; reflexivity))
      as [_ H2].
    destruct H2 as (x & l & E).
    + exists "1", "1", 1%Z. repeat split; simpl; auto.
    + discriminate E.
  - eexists; eexists. split; [vm_compute; reflexivity|]. split; reflexivity.
Qed.

(** C5 (amended): for every line on which the parser returns an interface,
    a string field is populated iff a pair with its key is present; a boolean
    or integer field is populated iff some pair with its key has a value that
    coerces; the trunks list is set (possibly empty) iff a [trunks] pair is
    present, and then holds exactly the elements of one [trunks] pair that
    parse, in order.  Every field is decided by the pairs of its own key alone
    (the last one that gives it a content), so a failing coercion changes no
    field. *)
Theorem fields_populated (config : string) (dg dg' : diag.Diagnostics)
  (iface : vmConfigDataSourceNetworkInterfaceModel) :
  parseNetworkConfig config dg = Ok (iface, dg') ->
  let kvs := keyValues config in
  (Model iface <> types.Null <-> exists v, In ("model", v) kvs) /\
  (Bridge iface <> types.Null <-> exists v, In ("bridge", v) kvs) /\
  (HardwareAddress iface <> types.Null <->
     exists v, In ("macaddr", v) kvs \/ In ("virtio", v) kvs) /\
  (Firewall iface <> types.Null <->
     exists v b, In ("firewall", v) kvs /\ strconv.ParseBool v = inl b) /\
  (LinkDown iface <> types.Null <->
     exists v b, In ("link_down", v) kvs /\ strconv.ParseBool v = inl b) /\
  (MTU iface <> types.Null <->
     exists v n, In ("mtu", v) kvs /\ strconv.ParseInt10 v 32 = inl n) /\
  (Queues iface <> types.Null <->
     exists v n, In ("queues", v) kvs /\ strconv.ParseInt10 v 32 = inl n) /\
  (Rate iface <> types.Null <->
     exists v n, In ("rate", v) kvs /\ strconv.ParseInt10 v 32 = inl n) /\
  (Tag iface <> types.Null <->
     exists v n, In ("tag", v) kvs /\ strconv.ParseInt10 v 32 = inl n) /\
  (Trunks iface <> None <-> exists v, In ("trunks", v) kvs) /\
  (forall trunks, Trunks iface = Some trunks ->
     exists v, In ("trunks", v) kvs /\ trunks = decodeTrunks v) /\
  iface = fieldwise config.
Proof.
  intros H kvs.
  pose proof (parseNetworkConfig_outcome config dg) as O.
  destruct (wellFormed (strings.Split config ",")); [|rewrite O in H; discriminate].
  destruct O as (dg1 & O). rewrite O in H. injection H as <- _.
  unfold fieldwise. fold kvs. cbn [Model Bridge HardwareAddress Firewall LinkDown MTU
    Queues Rate Tag Trunks].
  repeat split;
    try apply asBool_populated; try apply asInt32_populated;
    try apply asTrunks_populated; try apply asTrunks_content.
  - intros Hp. apply verbatim_populated in Hp as (k & v & Hin & [<- | []]). eauto.
  - intros (v & Hin). apply verbatim_populated. exists "model", v. simpl. auto.
  - intros Hp. apply verbatim_populated in Hp as (k & v & Hin & [<- | []]). eauto.
  - intros (v & Hin). apply verbatim_populated. exists "bridge", v. simpl. auto.
  - intros Hp. apply verbatim_populated in Hp as (k & v & Hin & [<- | [<- | []]]); eauto.
  - intros (v & [Hin | Hin]); apply verbatim_populated;
      [exists "macaddr", v | exists "virtio", v]; simpl; auto.
Qed.

Lemma fields_populated_witness :
  exists iface dg',
    parseNetworkConfig "bridge=vmbr0,firewall=x,mtu=1500,trunks=10;x" [] = Ok (iface, dg') /\
    (Firewall iface <> types.Null <->
       exists v b, In ("firewall", v)
                     (keyValues "bridge=vmbr0,firewall=x,mtu=1500,trunks=10;x") /\
                   strconv.ParseBool v = inl b) /\
    iface = fieldwise "bridge=vmbr0,firewall=x,mtu=1500,trunks=10;x".
Proof.
  eexists; eexists. split; [vm_compute; reflexivity|].
  split;
    eapply (fields_populated "bridge=vmbr0,firewall=x,mtu=1500,trunks=10;x" []);
    vm_compute; reflexivity.
Defined.


(** * The lookup: claims *)

(** Case analysis along a run of [Read] or [Configure] kept in hypothesis
    [H]: every test, answer and bind the run goes through is split. *)
Ltac split_run H :=
  repeat match type of H with
    | (if ?c then _ else _) = _ => destruct c
    | bind ?m _ = _ =>
        let answer := fresh "answer" in
        destruct m as [answer|?]; [try (destruct answer as [? ?])|];
        cbn [bind fst snd] in H
    | match ?x with _ => _ end = _ => destruct x
    end.

(** C7: the preconditions are checked in the order filter, node name, VM
    identifier, and the lookup returns at the first one that fails, with one
    error naming it, no state and no request to the remote API; in
    particular a missing node name is reported whatever the VM identifier
    is.  When none fails, the first thing the lookup does is the node
    request. *)
Theorem Read_preconditions (api : proxmox.API) (d : vmConfigDataSource)
  (pd : proxmoxveProviderData) (req : datasource.ReadRequest) :
  providerData d = Some pd ->
  diag.HasError (datasource.ConfigDiags req) = false ->
  match firstMissing (datasource.Config req) with
  | Some summary =>
      exists dgs detail,
        Read api d req = Ok ({| datasource.Diagnostics := dgs; datasource.State := None |}, []) /\
        diag.Errors dgs = [diag.NewErrorDiagnostic summary detail]
  | None =>
      forall resp calls, Read api d req = Ok (resp, calls) ->
        exists filter more,
          Filter (datasource.Config req) = Some filter /\
          calls = proxmox.CallNode (client pd) (types.ValueString (NodeName filter)) :: more
  end.
Proof.
  intros Hpd Hdg. unfold firstMissing, Read. rewrite Hpd.
  pose proof (diagFacts.Errors_decoded _ Hdg) as E0.
  rewrite (proj2 (diagFacts.no_Errors _) E0).
  destruct (Filter (datasource.Config req)) as [filter|].
  - destruct (NodeName filter) as [| |name] eqn:En; simpl;
      try (eexists; eexists; split; [reflexivity|];
           rewrite diagFacts.Errors_AddError, E0; reflexivity).
    destruct (VMID filter) as [| |vmid]; simpl;
      try (eexists; eexists; split; [reflexivity|];
           rewrite diagFacts.Errors_AddError, E0; reflexivity).
    intros resp calls H. exists filter. rewrite En. unfold returnNoState in H.
    split_run H; try discriminate H; injection H as _ <-;
      eexists; split; reflexivity.
  - eexists; eexists. split; [reflexivity|].
    rewrite diagFacts.Errors_AddError, E0. reflexivity.
Qed.

Lemma Read_preconditions_witness :
  exists dgs detail,
    Read unreachableAPI exampleDataSource (lookup types.Null types.Null) =
      Ok ({| datasource.Diagnostics := dgs; datasource.State := None |}, []) /\
    diag.Errors dgs = [diag.NewErrorDiagnostic "Filter Node Name Is Required" detail].
Proof.
  apply (Read_preconditions unreachableAPI exampleDataSource _
           (lookup types.Null types.Null) eq_refl eq_refl).
Defined.

(** C10: on every successful lookup the stored state carries the filter of
    the request unchanged, and its [vm_id] is the filter's, whatever
    identifier the record returned by the remote API bears. *)
Theorem Read_echoes_filter (api : proxmox.API) (d : vmConfigDataSource)
  (req : datasource.ReadRequest) (resp : datasource.ReadResponse)
  (calls : list proxmox.Call) (state : vmConfigDataSourceModel) :
  Read api d req = Ok (resp, calls) ->
  datasource.State resp = Some state ->
  exists filter data,
    Filter (datasource.Config req) = Some filter /\
    Filter state = Some filter /\
    Data state = Some data /\
    DataVMID data = VMID filter.
Proof.
  unfold Read, returnNoState. intros H Hstate.
  destruct (providerData d) as [pd|]; [|discriminate].
  repeat match type of H with
    | (if ?c then _ else _) = _ => destruct c
    | match ?x with _ => _ end = _ => destruct x
    | bind ?m _ = _ => destruct m; simpl in H
    | Ok _ = Ok _ => injection H as <- <-
    end;
    simpl in Hstate; try discriminate.
  injection Hstate as <-. eexists; eexists. repeat split.
Qed.

Lemma Read_echoes_filter_witness :
  let req := lookup (types.StringValue "pve1") (types.Int32Value 100) in
  match Read (exampleAPI [("net0", "virtio=AA:BB:CC:DD:EE:FF,bridge=vmbr0,firewall=1")])
          exampleDataSource req with
  | Ok (resp, _) =>
      match datasource.State resp with
      | Some state =>
          exists filter data,
            Filter (datasource.Config req) = Some filter /\
            Filter state = Some filter /\
            Data state = Some data /\
            DataVMID data = VMID filter
      | None => False
      end
  | Panic _ => False
  end.
Proof.
  intros req.
  pose proof (Read_echoes_filter
                (exampleAPI [("net0", "virtio=AA:BB:CC:DD:EE:FF,bridge=vmbr0,firewall=1")])
                exampleDataSource req) as T.
  remember (Read _ exampleDataSource req) as r eqn:Hr.
  vm_compute in Hr. subst r.
  exact (T _ _ _ eq_refl eq_refl).
Defined.

(** Whenever the lookup stores a state, its diagnostics are those of decoding
    the request and nothing else: nothing the parser raises is among them. *)
Lemma Read_success_diagnostics (api : proxmox.API) (d : vmConfigDataSource)
  (req : datasource.ReadRequest) (resp : datasource.ReadResponse)
  (calls : list proxmox.Call) (state : vmConfigDataSourceModel) :
  Read api d req = Ok (resp, calls) ->
  datasource.State resp = Some state ->
  datasource.Diagnostics resp = diag.Append [] (datasource.ConfigDiags req).
Proof.
  unfold Read, returnNoState. intros H Hstate.
  destruct (providerData d) as [pd|]; [|discriminate].
  repeat match type of H with
    | (if ?c then _ else _) = _ => destruct c
    | match ?x with _ => _ end = _ => destruct x
    | bind ?m _ = _ => destruct m; simpl in H
    | Ok _ = Ok _ => injection H as <- <-
    end;
    simpl in Hstate; try discriminate.
  reflexivity.
Qed.

(** C1, at the failing input: on the line [firewall=x,bridge=vmbr0] the
    parser leaves [firewall] unset, sets [bridge] and raises exactly one
    diagnostic naming [firewall], but in its own copy of the collection: the
    lookup returns with no diagnostic at all and stores the state. *)
Theorem parse_diagnostic_not_reported :
  (exists iface d,
     parseNetworkConfig "firewall=x,bridge=vmbr0" [] = Ok (iface, [d]) /\
     Firewall iface = types.Null /\
     Bridge iface = types.StringValue "vmbr0" /\
     d = diag.NewErrorDiagnostic "Unexpected VM Config Value"
           (diag.Sprintf
              "The value for the 'firewall' property for the network interface was not expected: %s"
              [diag.OpNumError (strconv.syntaxError "ParseBool" "x")])) /\
  (exists state calls,
     Read (exampleAPI [("net0", "firewall=x,bridge=vmbr0")]) exampleDataSource
       (lookup (types.StringValue "pve1") (types.Int32Value 100)) =
     Ok ({| datasource.Diagnostics := []; datasource.State := Some state |}, calls)).
Proof.
  split.
  - eexists; eexists. split; [vm_compute; reflexivity|]. repeat split.
  - eexists; eexists. vm_compute. reflexivity.
Qed.

(** * The connection: claims *)

Lemma Errors_checkUnknown (config : proxmoxveProviderModel) (dg : diag.Diagnostics) :
  diag.Errors dg = [] ->
  diag.Errors (checkUnknown config dg) =
  when (types.IsUnknown (APITokenID config))
    (diag.NewAttributeErrorDiagnostic "api_token_id" "Unknown Proxmox VE API Token ID"
       (unknownDetail "API token ID")) ++
  when (types.IsUnknown (APITokenSecret config))
    (diag.NewAttributeErrorDiagnostic "api_token_secret" "Unknown Proxmox VE API Token Secret"
       (unknownDetail "API token secret")) ++
  when (types.IsUnknown (APITokenID config))
    (diag.NewAttributeErrorDiagnostic "api_token_username"
       "Unknown Proxmox VE API Token Username" (unknownDetail "API token username")) ++
  when (types.IsUnknown (Endpoint config))
    (diag.NewAttributeErrorDiagnostic "endpoint" "Unknown Proxmox VE Endpoint"
       (unknownDetail "endpoint")).
Proof.
  intros E. unfold checkUnknown.
  destruct (types.IsUnknown (APITokenID config)),
    (types.IsUnknown (APITokenSecret config)),
    (types.IsUnknown (Endpoint config));
    rewrite ?diagFacts.Errors_AddAttributeError, E; vm_compute; reflexivity.
Qed.

Lemma Errors_checkMissing (config : proxmoxveProviderModel) (dg : diag.Diagnostics) :
  diag.Errors dg = [] ->
  diag.Errors (checkMissing config dg) =
  when (types.ValueString (APITokenID config) =? "")
    (diag.NewAttributeErrorDiagnostic "api_token_id" "Missing Proxmox VE API Token ID"
       (missingDetail "API token ID")) ++
  when (types.ValueString (APITokenSecret config) =? "")
    (diag.NewAttributeErrorDiagnostic "api_token_secret" "Missing Proxmox VE API Token Secret"
       (missingDetail "API token secret")) ++
  when (types.ValueString (APITokenUsername config) =? "")
    (diag.NewAttributeErrorDiagnostic "api_token_username"
       "Missing Proxmox VE API Token Username" (missingDetail "API token username")) ++
  when (types.ValueString (Endpoint config) =? "")
    (diag.NewAttributeErrorDiagnostic "endpoint" "Missing Proxmox VE Endpoint"
       (missingDetail "endpoint")).
Proof.
  intros E. unfold checkMissing.
  destruct (types.ValueString (APITokenID config) =? ""),
    (types.ValueString (APITokenSecret config) =? ""),
    (types.ValueString (APITokenUsername config) =? ""),
    (types.ValueString (Endpoint config) =? "");
    rewrite ?diagFacts.Errors_AddAttributeError, E; vm_compute; reflexivity.
Qed.

Lemma HasError_AddError (dg : diag.Diagnostics) (summary : string)
  (detail : diag.Detail) :
  diag.HasError (diag.AddError dg summary detail) = true.
Proof.
  unfold diag.AddError. rewrite diagFacts.HasError_Append. apply orb_true_r.
Qed.

(** C2 as the claim states it fails: with an unknown endpoint and an empty
    token secret, the only error is the one for the endpoint; the empty
    secret is not reported, because the emptiness checks are not reached. *)
Lemma empty_field_unreported_after_unknown :
  exists resp,
    Configure unreachableAPI {| version := "dev" |} (configureRequest mixedConfig) =
      (Ok resp, []) /\
    types.IsUnknown (fieldValue mixedConfig FieldEndpoint) = true /\
    types.ValueString (fieldValue mixedConfig FieldAPITokenSecret) = "" /\
    errorsOf FieldEndpoint (provider.Diagnostics resp) = ["Unknown Proxmox VE Endpoint"] /\
    errorsOf FieldAPITokenSecret (provider.Diagnostics resp) = [] /\
    length (diag.Errors (provider.Diagnostics resp)) = 1.
Proof. eexists. split; [vm_compute; reflexivity|]. vm_compute. repeat split. Qed.

(** The ways [Configure] ends, by the errors of the two rounds and the
    answer to the version request. *)
Section ConfigurePhases.

Variable api : proxmox.API.
Variable p : proxmoxveProvider.
Variable req : provider.ConfigureRequest.
Hypothesis decoded : diag.HasError (provider.ConfigDiags req) = false.

Let config := provider.Config req.
Let dg0 := diag.Append [] (provider.ConfigDiags req).

Lemma Configure_returns_unknown :
  diag.Errors (checkUnknown config dg0) <> [] ->
  Configure api p req = returnNoData (checkUnknown config dg0) [].
Proof.
  intros H. unfold Configure. cbv zeta. fold config dg0.
  rewrite (proj2 (diagFacts.no_Errors dg0) (diagFacts.Errors_decoded _ decoded)).
  rewrite (diagFacts.HasError_Errors (checkUnknown config dg0)).
  destruct (diag.Errors (checkUnknown config dg0)); [contradiction | reflexivity].
Qed.

Lemma Configure_returns_missing :
  diag.Errors (checkUnknown config dg0) = [] ->
  diag.Errors (checkMissing config (checkUnknown config dg0)) <> [] ->
  Configure api p req = returnNoData (checkMissing config (checkUnknown config dg0)) [].
Proof.
  intros HU HM. unfold Configure. cbv zeta. fold config dg0.
  rewrite (proj2 (diagFacts.no_Errors dg0) (diagFacts.Errors_decoded _ decoded)).
  rewrite (proj2 (diagFacts.no_Errors _) HU).
  rewrite (diagFacts.HasError_Errors (checkMissing config _)).
  destruct (diag.Errors (checkMissing config _)); [contradiction | reflexivity].
Qed.

Lemma Configure_reaches_version :
  diag.Errors (checkUnknown config dg0) = [] ->
  diag.Errors (checkMissing config (checkUnknown config dg0)) = [] ->
  let dg := checkMissing config (checkUnknown config dg0) in
  let calls := [proxmox.CallVersion (newClient config)] in
  Configure api p req =
  match proxmox.Client_Version api (newClient config) with
  | Panic e => (Panic e, calls)
  | Ok (_, Some err) =>
      returnNoData
        (diag.AddError dg "Proxmox VE API: Get Version Failed"
           (diag.Sprintf
              ("Failed to get the Proxmox VE version details from the API:"
               ++ newlineTab ++ "%s")
              [diag.OpString err]))
        calls
  | Ok (None, None) => (Panic NilPointerDereference, calls)
  | Ok (Some _, None) =>
      let data := {| client := newClient config;
                     endpoint := types.ValueString (Endpoint config); provider := p |} in
      (Ok {| provider.Diagnostics := dg; provider.DataSourceData := Some data;
             provider.ResourceData := Some data |}, calls)
  end.
Proof.
  intros HU HM. unfold Configure. cbv zeta. fold config dg0.
  rewrite (proj2 (diagFacts.no_Errors dg0) (diagFacts.Errors_decoded _ decoded)).
  rewrite (proj2 (diagFacts.no_Errors _) HU).
  rewrite (proj2 (diagFacts.no_Errors _) HM).
  destruct (proxmox.Client_Version api (newClient config)) as [[version [err|]]|e];
    [| |reflexivity].
  - rewrite diagFacts.HasError_Errors, diagFacts.Errors_AddError, HM.
    destruct version; reflexivity.
  - rewrite (proj2 (diagFacts.no_Errors _) HM). destruct version; reflexivity.
Qed.

End ConfigurePhases.

(** C2 (amended): the required fields are checked in two rounds, each of
    which collects all its errors before returning.  If any of [endpoint],
    [api_token_id], [api_token_secret] is unknown, each unknown one of them
    gets exactly one "Unknown ..." error and Configure returns without
    checking for empty values.  If no required field is unknown and some is
    empty, each empty one gets exactly one "Missing ..." error.  In both
    cases no request is sent and no client is published. *)
Theorem Configure_collects_errors (api : proxmox.API) (p : proxmoxveProvider)
  (req : provider.ConfigureRequest) :
  diag.HasError (provider.ConfigDiags req) = false ->
  let config := provider.Config req in
  ((exists f, f <> FieldAPITokenUsername /\ types.IsUnknown (fieldValue config f) = true) ->
   exists resp,
     Configure api p req = (Ok resp, []) /\ provider.DataSourceData resp = None /\
     forall f, f <> FieldAPITokenUsername ->
       errorsOf f (provider.Diagnostics resp) =
       when (types.IsUnknown (fieldValue config f)) (unknownSummary f)) /\
  ((forall f, types.IsUnknown (fieldValue config f) = false) ->
   (exists f, types.ValueString (fieldValue config f) = "") ->
   exists resp,
     Configure api p req = (Ok resp, []) /\ provider.DataSourceData resp = None /\
     forall f,
       errorsOf f (provider.Diagnostics resp) =
       when (types.ValueString (fieldValue config f) =? "") (missingSummary f)).
Proof.
  intros Hdg config.
  pose proof (diagFacts.Errors_decoded _ Hdg) as E0.
  pose proof (Errors_checkUnknown config _ E0) as EU.
  split.
  - intros (f0 & Hf0 & Hu).
    assert (types.IsUnknown (APITokenID config) || types.IsUnknown (APITokenSecret config)
            || types.IsUnknown (Endpoint config) = true) as Hany.
    { destruct f0; simpl in Hu; try congruence; rewrite Hu;
        rewrite ?orb_true_r; reflexivity. }
    clear f0 Hf0 Hu.
    rewrite (Configure_returns_unknown api p req Hdg).
    + fold config. unfold returnNoData. eexists. split; [reflexivity|].
      unfold errorsOf, diag.ErrorsAt.
      cbn [provider.Diagnostics provider.DataSourceData].
      rewrite EU. clear EU.
      split; [reflexivity|].
      intros f Hf.
      destruct (types.IsUnknown (APITokenID config)) eqn:UI,
        (types.IsUnknown (APITokenSecret config)) eqn:US,
        (types.IsUnknown (Endpoint config)) eqn:UE; try discriminate Hany;
        destruct f; try congruence; cbn [fieldValue]; rewrite ?UI, ?US, ?UE;
        vm_compute; reflexivity.
    + fold config. rewrite EU.
      destruct (types.IsUnknown (APITokenID config)),
        (types.IsUnknown (APITokenSecret config)),
        (types.IsUnknown (Endpoint config)); try discriminate Hany; discriminate.
  - intros Hknown (f0 & Hempty).
    pose proof (Hknown FieldAPITokenID) as UI. pose proof (Hknown FieldAPITokenSecret) as US.
    pose proof (Hknown FieldEndpoint) as UE. cbn [fieldValue] in UI, US, UE.
    rewrite UI, US, UE in EU. cbn [when app] in EU.
    pose proof (Errors_checkMissing config _ EU) as EM.
    assert ((types.ValueString (APITokenID config) =? "")
            || (types.ValueString (APITokenSecret config) =? "")
            || (types.ValueString (APITokenUsername config) =? "")
            || (types.ValueString (Endpoint config) =? "") = true) as Hany.
    { destruct f0; cbn [fieldValue] in Hempty; rewrite Hempty; cbn [String.eqb orb];
        rewrite ?orb_true_r; reflexivity. }
    clear f0 Hempty.
    rewrite (Configure_returns_missing api p req Hdg EU).
    + fold config. unfold returnNoData. eexists. split; [reflexivity|].
      unfold errorsOf, diag.ErrorsAt.
      cbn [provider.Diagnostics provider.DataSourceData].
      rewrite EM. clear EM EU.
      split; [reflexivity|].
      intros f.
      destruct (types.ValueString (APITokenID config) =? "") eqn:MI,
        (types.ValueString (APITokenSecret config) =? "") eqn:MS,
        (types.ValueString (APITokenUsername config) =? "") eqn:MU,
        (types.ValueString (Endpoint config) =? "") eqn:ME; try discriminate Hany;
        destruct f; cbn [fieldValue]; rewrite ?MI, ?MS, ?MU, ?ME;
        vm_compute; reflexivity.
    + fold config. rewrite EM.
      destruct (types.ValueString (APITokenID config) =? ""),
        (types.ValueString (APITokenSecret config) =? ""),
        (types.ValueString (APITokenUsername config) =? ""),
        (types.ValueString (Endpoint config) =? ""); try discriminate Hany; discriminate.
Qed.

Lemma Configure_collects_errors_witness :
  exists resp,
    Configure unreachableAPI {| version := "dev" |} (configureRequest twoEmptyConfig) =
      (Ok resp, []) /\
    errorsOf FieldAPITokenID (provider.Diagnostics resp) =
      ["Missing Proxmox VE API Token ID"] /\
    errorsOf FieldAPITokenSecret (provider.Diagnostics resp) =
      ["Missing Proxmox VE API Token Secret"] /\
    errorsOf FieldEndpoint (provider.Diagnostics resp) = [].
Proof.
  destruct (Configure_collects_errors unreachableAPI {| version := "dev" |}
              (configureRequest twoEmptyConfig) eq_refl) as [_ H].
  destruct H as (resp & Hrun & _ & H).
  - intros []; reflexivity.
  - exists FieldAPITokenID. reflexivity.
  - exists resp. split; [exact Hrun|].
    split; [exact (H FieldAPITokenID)|].
    split; [exact (H FieldAPITokenSecret) | exact (H FieldEndpoint)].
Defined.

(** The unknown-value check that reports [api_token_username] tests the token
    ID: an unknown token ID is reported against the (known) username as well,
    and an unknown username goes unreported when another unknown field ends
    the run. *)
Lemma username_check_tests_token_id :
  (exists resp,
     fst (Configure unreachableAPI {| version := "dev" |}
            (configureRequest
               {| APITokenID := types.Unknown;
                  APITokenSecret := types.StringValue "s";
                  APITokenUsername := types.StringValue "root@pam";
                  Endpoint := types.StringValue "https://pve1:8006";
                  IgnoreUntrustedSSLCertificate := types.Null |})) = Ok resp /\
     errorsOf FieldAPITokenUsername (provider.Diagnostics resp) =
       ["Unknown Proxmox VE API Token Username"]) /\
  (exists resp,
     fst (Configure unreachableAPI {| version := "dev" |}
            (configureRequest
               {| APITokenID := types.StringValue "tf";
                  APITokenSecret := types.StringValue "s";
                  APITokenUsername := types.Unknown;
                  Endpoint := types.Unknown;
                  IgnoreUntrustedSSLCertificate := types.Null |})) = Ok resp /\
     errorsOf FieldAPITokenUsername (provider.Diagnostics resp) = []).
Proof. split; eexists; (split; [vm_compute; reflexivity|]); vm_compute; reflexivity. Qed.

Lemma supplied_known (v : types.String) :
  supplied v -> types.IsUnknown v = false /\ (types.ValueString v =? "") = false.
Proof.
  intros (s & -> & Hs). split; [reflexivity|]. simpl. now apply String.eqb_neq.
Qed.

(** C8, with the failing input: when the four required fields are all
    non-empty and known, Configure sends exactly one request, the version
    request.  When the request returns an error, there is exactly one error,
    carrying the failure's text, and no handle; when it returns version
    metadata and no error, Configure succeeds (no error, the handle
    published to data sources and resources).  When it returns neither error
    nor metadata, the check has not failed and yet Configure does not
    succeed: it faults on the nil pointer, with no error reported and no
    handle published. *)
Theorem Configure_version_check (api : proxmox.API) (p : proxmoxveProvider)
  (req : provider.ConfigureRequest) :
  diag.HasError (provider.ConfigDiags req) = false ->
  let config := provider.Config req in
  (forall f, supplied (fieldValue config f)) ->
  let run := Configure api p req in
  let data := {| client := newClient config;
                 endpoint := types.ValueString (Endpoint config); provider := p |} in
  snd run = [proxmox.CallVersion (newClient config)] /\
  ((exists v, proxmox.Client_Version api (newClient config) = Ok (Some v, None)) <->
   (exists resp, fst run = Ok resp /\
                 diag.HasError (provider.Diagnostics resp) = false /\
                 provider.DataSourceData resp = Some data /\
                 provider.ResourceData resp = Some data)) /\
  (forall version err,
     proxmox.Client_Version api (newClient config) = Ok (version, Some err) ->
     exists resp,
       fst run = Ok resp /\
       diag.Errors (provider.Diagnostics resp) =
         [diag.NewErrorDiagnostic "Proxmox VE API: Get Version Failed"
            (diag.Sprintf
               ("Failed to get the Proxmox VE version details from the API:"
                ++ newlineTab ++ "%s")
               [diag.OpString err])] /\
       provider.DataSourceData resp = None /\
       provider.ResourceData resp = None) /\
  (proxmox.Client_Version api (newClient config) = Ok (None, None) ->
   fst run = Panic NilPointerDereference) /\
  (forall e, proxmox.Client_Version api (newClient config) = Panic e ->
             fst run = Panic e).
Proof.
  intros Hdg config Hsupplied run data. subst run.
  pose proof (diagFacts.Errors_decoded _ Hdg) as E0.
  pose proof (Errors_checkUnknown config _ E0) as EU.
  destruct (supplied_known _ (Hsupplied FieldAPITokenID)) as [UI MI].
  destruct (supplied_known _ (Hsupplied FieldAPITokenSecret)) as [US MS].
  destruct (supplied_known _ (Hsupplied FieldAPITokenUsername)) as [_ MU].
  destruct (supplied_known _ (Hsupplied FieldEndpoint)) as [UE ME].
  cbn [fieldValue] in *.
  rewrite UI, US, UE in EU. cbn [when app] in EU.
  pose proof (Errors_checkMissing config _ EU) as EM.
  rewrite MI, MS, MU, ME in EM. cbn [when app] in EM.
  rewrite (Configure_reaches_version api p req Hdg EU EM). fold config.
  destruct (proxmox.Client_Version api (newClient config)) as [[[v|] [err|]]|e];
    cbn [fst snd returnNoData].
  - split; [reflexivity|]. split; [|split; [|split]]; try discriminate.
    + split; [intros (v' & H); discriminate H|].
      intros (resp & H & He & _). injection H as <-.
      cbn [provider.Diagnostics] in He. rewrite HasError_AddError in He.
      discriminate He.
    + intros version err' H. injection H as _ <-. eexists. split; [reflexivity|].
      cbn [provider.Diagnostics provider.DataSourceData provider.ResourceData].
      rewrite diagFacts.Errors_AddError, EM. repeat split.
  - split; [reflexivity|]. split; [|split; [|split]]; try discriminate.
    split; [|eauto]. intros _. eexists. split; [reflexivity|].
    cbn [provider.Diagnostics provider.DataSourceData provider.ResourceData].
    split; [apply diagFacts.no_Errors, EM | split; reflexivity].
  - split; [reflexivity|]. split; [|split; [|split]]; try discriminate.
    + split; [intros (v' & H); discriminate H|].
      intros (resp & H & He & _). injection H as <-.
      cbn [provider.Diagnostics] in He. rewrite HasError_AddError in He.
      discriminate He.
    + intros version err' H. injection H as _ <-. eexists. split; [reflexivity|].
      cbn [provider.Diagnostics provider.DataSourceData provider.ResourceData].
      rewrite diagFacts.Errors_AddError, EM. repeat split.
  - split; [reflexivity|]. split; [|split; [|split]]; try discriminate.
    + split; [intros (v' & H); discriminate H | intros (resp & H & _); discriminate H].
    + reflexivity.
  - split; [reflexivity|]. split; [|split; [|split]]; try discriminate.
    + split; [intros (v' & H); discriminate H | intros (resp & H & _); discriminate H].
    + intros e' H. injection H as <-. reflexivity.
Qed.

Lemma Configure_version_check_witness :
  let run := Configure emptyAnswerAPI {| version := "dev" |} (configureRequest exampleConfig) in
  (forall f, supplied (fieldValue exampleConfig f)) /\
  snd run = [proxmox.CallVersion (newClient exampleConfig)] /\
  fst run = Panic NilPointerDereference.
Proof.
  intros run.
  assert (forall f, supplied (fieldValue exampleConfig f)) as Hs.
  { intros []; eexists; (split; [reflexivity | discriminate]). }
  destruct (Configure_version_check emptyAnswerAPI {| version := "dev" |}
              (configureRequest exampleConfig) eq_refl Hs) as (Hcalls & _ & _ & Hnil & _).
  split; [exact Hs|]. split; [exact Hcalls | exact (Hnil eq_refl)].
Defined.

(** * Integers read by the parser *)

Lemma uintLoop_bound (s0 s : string) (maxVal n un : Z) (err : option strconv.NumError) :
  (0 <= n <= maxVal)%Z ->
  strconv.uintLoop s0 s maxVal n = (un, err) ->
  (0 <= un <= maxVal)%Z.
Proof.
  revert n. induction s as [|c rest IH]; intros n Hn H.
  - injection H as <- _. exact Hn.
  - cbn [strconv.uintLoop] in H. cbv zeta in H.
    destruct ((48 <=? strconv.byte c)%Z && (strconv.byte c <=? 57)%Z);
      [|injection H as <- _; lia].
    destruct (n >=? strconv.maxUint64 / 10 + 1)%Z; [injection H as <- _; lia|].
    match type of H with (if ?b then _ else _) = _ => destruct b eqn:B end;
      [injection H as <- _; lia|].
    apply orb_false_iff in B as [_ B]. refine (IH _ _ H).
    split; [apply Z.mod_pos_bound; lia | lia].
Qed.

Lemma ParseInt10_range (s : string) (v : Z) :
  strconv.ParseInt10 s 32 = inl v -> inInt32 v /\ int32 v = v.
Proof.
  unfold strconv.ParseInt10. destruct s as [|c rest]; [discriminate|].
  cbv zeta. intros H.
  match type of H with
  | context [strconv.ParseUint10 ?b 32] =>
      destruct (strconv.ParseUint10 b 32) as [un err] eqn:E;
      assert (0 <= un <= 2 ^ 32 - 1)%Z as Hun;
      [unfold strconv.ParseUint10 in E; destruct b;
       [injection E as <- _; lia | eapply uintLoop_bound; [|exact E]; lia]|]
  end.
  assert (inInt32 v) as R.
  { unfold inInt32. change (2 ^ (32 - 1))%Z with (2 ^ 31)%Z in H.
    destruct (Ascii.eqb c "-"); cbn [negb andb] in H;
      destruct err as [[fn num []]|]; try discriminate H;
      repeat match type of H with
        | (if ?b then _ else _) = _ => destruct b eqn:?
        end; try discriminate H; injection H as <-; lia. }
  split; [exact R|]. unfold inInt32 in R. unfold int32.
  rewrite Z.mod_small by lia. lia.
Qed.

Lemma integer_field_source (names : list string) (kvs : list (string * string)) (z : Z) :
  lastUpdate (whenKey names asInt32) kvs types.Null = types.Value z ->
  exists k v, In (k, v) kvs /\ In k names /\ strconv.ParseInt10 v 32 = inl z.
Proof.
  intros H.
  destruct (lastUpdate_cases _ kvs types.Null _ H) as [[Heq _] | ([k v] & Hin & Hkv)];
    [discriminate Heq|].
  unfold whenKey, asInt32 in Hkv. cbn [fst snd] in Hkv.
  destruct (strconv.strIn k names) eqn:Hk; [|discriminate Hkv].
  apply strIn_In in Hk.
  destruct (strconv.ParseInt10 v 32) as [val|] eqn:E; [|discriminate Hkv].
  injection Hkv as Hz. destruct (ParseInt10_range _ _ E) as [_ Hval].
  unfold types.Int32Value in Hz. exists k, v. repeat split; auto. congruence.
Qed.

Lemma decodeTrunks_source (value : string) (z : Z) :
  In (types.Value z) (decodeTrunks value) ->
  exists elem, In elem (strings.Split value ";") /\ strconv.ParseInt10 elem 32 = inl z.
Proof.
  unfold decodeTrunks. rewrite in_flat_map. intros (elem & Hin & Hz).
  exists elem. split; [exact Hin|]. unfold decodeTrunk in Hz.
  destruct (strconv.ParseInt10 elem 32) as [val|] eqn:E; [|destruct Hz].
  destruct Hz as [Hz | []]. destruct (ParseInt10_range _ _ E) as [_ Hval].
  unfold types.Int32Value in Hz. congruence.
Qed.

(** X1: every integer the parser stores (mtu, queues, rate, tag and each
    trunk) is the very number [strconv.ParseInt] returned for a pair of its
    key, and lies in the 32-bit range: the [int32(val)] conversion never
    wraps. *)
Theorem stored_integers_are_parsed (config : string) (dg dg' : diag.Diagnostics)
  (iface : vmConfigDataSourceNetworkInterfaceModel) :
  parseNetworkConfig config dg = Ok (iface, dg') ->
  (forall key field z,
     In (key, field) integerKeys -> field iface = types.Value z ->
     inInt32 z /\
     exists v, In (key, v) (keyValues config) /\ strconv.ParseInt10 v 32 = inl z) /\
  (forall trunks z,
     Trunks iface = Some trunks -> In (types.Value z) trunks ->
     inInt32 z /\
     exists v elem, In ("trunks", v) (keyValues config) /\
                    In elem (strings.Split v ";") /\
                    strconv.ParseInt10 elem 32 = inl z).
Proof.
  intros H.
  pose proof (parseNetworkConfig_outcome config dg) as O.
  destruct (wellFormed (strings.Split config ",")); [|rewrite O in H; discriminate].
  destruct O as (dg1 & O). rewrite O in H. injection H as <- _.
  split.
  - intros key field z Hkey Hz.
    assert (exists k v, In (k, v) (keyValues config) /\ In k [key] /\
                        strconv.ParseInt10 v 32 = inl z) as (k & v & Hin & [<- | []] & E).
    { simpl in Hkey.
      destruct Hkey as [Hk | [Hk | [Hk | [Hk | []]]]]; injection Hk as <- <-;
        exact (integer_field_source _ _ _ Hz). }
    split; [exact (proj1 (ParseInt10_range _ _ E)) | eauto].
  - intros trunks z Ht Hz. cbn [fieldwise Trunks] in Ht.
    destruct (asTrunks_content _ _ Ht) as (v & Hin & ->).
    destruct (decodeTrunks_source _ _ Hz) as (elem & He & E).
    split; [exact (proj1 (ParseInt10_range _ _ E)) | eauto].
Qed.

Lemma stored_integers_are_parsed_witness :
  exists iface dg',
    parseNetworkConfig "mtu=1500,tag=-7,rate=99999999999,trunks=10;x;4094" [] =
      Ok (iface, dg') /\
    MTU iface = types.Value 1500%Z /\ inInt32 1500 /\
    Tag iface = types.Value (-7)%Z /\ inInt32 (-7) /\
    Rate iface = types.Null.
Proof.
  eexists; eexists. split; [vm_compute; reflexivity|].
  pose proof (stored_integers_are_parsed
                "mtu=1500,tag=-7,rate=99999999999,trunks=10;x;4094" [] _ _
                ltac:(vm_compute; reflexivity)) as [T _].
  split; [reflexivity|].
  split; [exact (proj1 (T "mtu" MTU 1500%Z ltac:(simpl; auto) eq_refl))|].
  split; [reflexivity|].
  split; [exact (proj1 (T "tag" Tag (-7)%Z ltac:(simpl; auto) eq_refl))|].
  reflexivity.
Defined.

(** * Decimal numerals *)

Lemma digit_byte (c : ascii) :
  (48 <=? strconv.byte c)%Z && (strconv.byte c <=? 57)%Z = true ->
  (0 <= strconv.byte c - 48 <= 9)%Z.
Proof. intros H. apply andb_true_iff in H as [H1 H2]. lia. Qed.

Lemma digit_is_no_separator (c sep : ascii) :
  (48 <=? strconv.byte c)%Z && (strconv.byte c <=? 57)%Z = true ->
  In sep ["+"; "-"; ","; "="; ";"]%char ->
  Ascii.eqb c sep = false.
Proof.
  intros H Hsep. apply Ascii.eqb_neq. intros ->.
  simpl in Hsep. decompose [or] Hsep; subst; try discriminate H; contradiction.
Qed.

Lemma allDigits_Contains (s : string) (sep : ascii) :
  allDigits s = true -> In sep ["+"; "-"; ","; "="; ";"]%char ->
  strings.Contains s sep = false.
Proof.
  intros H Hsep. induction s as [|c rest IH]; simpl in *; [reflexivity|].
  apply andb_true_iff in H as [Hc Hrest].
  rewrite (digit_is_no_separator _ _ Hc Hsep). auto.
Qed.

Lemma decimalValue_ge (s : string) (n : Z) :
  allDigits s = true -> (0 <= n)%Z -> (n <= decimalValue s n)%Z.
Proof.
  revert n. induction s as [|c rest IH]; simpl; intros n H Hn; [lia|].
  apply andb_true_iff in H as [Hc Hrest]. apply digit_byte in Hc.
  specialize (IH (n * 10 + (strconv.byte c - 48))%Z Hrest). lia.
Qed.

Lemma uintLoop_digits (s0 s : string) (n : Z) :
  allDigits s = true -> (0 <= n)%Z -> (decimalValue s n <= 2 ^ 32 - 1)%Z ->
  strconv.uintLoop s0 s (2 ^ 32 - 1) n = (decimalValue s n, None).
Proof.
  revert n. induction s as [|c rest IH]; intros n H Hn Hv; [reflexivity|].
  cbn [allDigits] in H. apply andb_true_iff in H as [Hc Hrest].
  cbn [decimalValue] in Hv |- *.
  pose proof (digit_byte _ Hc) as Hd.
  pose proof (decimalValue_ge rest (n * 10 + (strconv.byte c - 48)) Hrest) as Hge.
  cbn [strconv.uintLoop]. cbv zeta. rewrite Hc.
  assert ((n * 10) mod 2 ^ 64 = n * 10)%Z as E1 by (apply Z.mod_small; lia).
  assert ((n * 10 + (strconv.byte c - 48)) mod 2 ^ 64 = n * 10 + (strconv.byte c - 48))%Z
    as E2 by (apply Z.mod_small; lia).
  rewrite E1, E2. unfold strconv.maxUint64.
  replace (n >=? (2 ^ 64 - 1) / 10 + 1)%Z with false
    by (symmetry; rewrite Z.geb_leb; apply Z.leb_gt;
        change ((2 ^ 64 - 1) / 10 + 1)%Z with 1844674407370955162%Z; lia).
  replace (n * 10 + (strconv.byte c - 48) <? n * 10)%Z with false
    by (symmetry; apply Z.ltb_ge; lia).
  replace (n * 10 + (strconv.byte c - 48) >? 2 ^ 32 - 1)%Z with false
    by (symmetry; rewrite Z.gtb_ltb; apply Z.ltb_ge; lia).
  apply IH; [exact Hrest | lia | exact Hv].
Qed.

Lemma ParseInt10_digits (s : string) :
  s <> "" -> allDigits s = true ->
  ((decimalValue s 0 < 2 ^ 31)%Z ->
   strconv.ParseInt10 s 32 = inl (decimalValue s 0)) /\
  ((decimalValue s 0 <= 2 ^ 31)%Z ->
   strconv.ParseInt10 (String "-" s) 32 = inl (- decimalValue s 0)%Z).
Proof.
  intros Hne Hs.
  assert (forall c rest, s = String c rest ->
            Ascii.eqb c "+" = false /\ Ascii.eqb c "-" = false) as Hsign.
  { intros c rest ->. cbn [allDigits] in Hs. apply andb_true_iff in Hs as [Hc _].
    split; apply (digit_is_no_separator _ _ Hc); simpl; auto. }
  split; intros Hv.
  - destruct s as [|c rest] eqn:Es; [contradiction|].
    destruct (Hsign c rest eq_refl) as [Hplus Hminus].
    unfold strconv.ParseInt10. rewrite Hplus, Hminus. cbn [orb negb andb].
    unfold strconv.ParseUint10.
    rewrite (uintLoop_digits _ _ 0 Hs ltac:(lia) ltac:(lia)).
    change (2 ^ (32 - 1))%Z with (2 ^ 31)%Z.
    replace (decimalValue (String c rest) 0 >=? 2 ^ 31)%Z with false
      by (symmetry; rewrite Z.geb_leb; apply Z.leb_gt; lia).
    reflexivity.
  - unfold strconv.ParseInt10.
    change (Ascii.eqb "-" "-") with true. change (Ascii.eqb "-" "+") with false.
    cbn [orb negb andb]. unfold strconv.ParseUint10.
    destruct s as [|c rest] eqn:Es; [contradiction|].
    rewrite (uintLoop_digits _ _ 0 Hs ltac:(lia) ltac:(lia)).
    change (2 ^ (32 - 1))%Z with (2 ^ 31)%Z.
    replace (decimalValue (String c rest) 0 >? 2 ^ 31)%Z with false
      by (symmetry; rewrite Z.gtb_ltb; apply Z.ltb_ge; lia).
    reflexivity.
Qed.

(** * The diagnostics the parser raises *)

Lemma Append_app (dg : diag.Diagnostics) (a b : list diag.Diagnostic) :
  diag.Append dg (a ++ b) = diag.Append (diag.Append dg a) b.
Proof. unfold diag.Append. apply fold_left_app. Qed.


Lemma Append_keeps (dg : diag.Diagnostics) (new : list diag.Diagnostic) (d : diag.Diagnostic) :
  In d dg \/ In d new -> In d (diag.Append dg new).
Proof.
  revert dg. induction new as [|x rest IH]; intros dg H.
  - destruct H as [H | []]. exact H.
  - change (diag.Append dg (x :: rest)) with (diag.Append (diag.append1 dg x) rest).
    apply IH. unfold diag.append1.
    destruct (diag.Contains dg x) eqn:C.
    + apply diagFacts.Contains_In in C.
      destruct H as [H | [<- | H]]; auto.
    + rewrite in_app_iff. simpl. destruct H as [H | [<- | H]]; auto.
Qed.

Lemma trunksLoop_diags (elems : list string) (trunks : list types.Int32)
  (dg : diag.Diagnostics) :
  snd (trunksLoop elems trunks dg) = diag.Append dg (flat_map failedTrunk elems).
Proof.
  revert trunks dg. induction elems as [|e rest IH]; intros trunks dg; [reflexivity|].
  cbn [trunksLoop flat_map]. unfold failedTrunk at 1.
  destruct (strconv.ParseInt10 e 32) as [val|err].
  - apply IH.
  - rewrite IH, Append_app. reflexivity.
Qed.

Lemma switchKey_diags (key value : string) (st : ifaceState) :
  snd (switchKey key value st) = diag.Append (snd st) (failures (key, value)).
Proof.
  destruct st as [iface dg].
  unfold switchKey, failures, boolKeys, intKeys, strconv.strIn. cbn [fst snd existsb].
  by_key key; try reflexivity;
    try (destruct (strconv.ParseBool value); reflexivity);
    try (destruct (strconv.ParseInt10 value 32); reflexivity).
  pose proof (trunksLoop_diags (strings.Split value ";") [] dg) as H.
  destruct (trunksLoop _ [] dg). exact H.
Qed.

Lemma forPairs_diags (pairs : list string) (st : ifaceState) :
  snd (fold_left (fun s pair => switchKey (keyOf pair) (valueOf pair) s) pairs st) =
  diag.Append (snd st)
    (flat_map failures (map (fun pair => (keyOf pair, valueOf pair)) pairs)).
Proof.
  revert st. induction pairs as [|p rest IH]; intros st; [reflexivity|].
  cbn [fold_left map flat_map]. rewrite IH, switchKey_diags, Append_app. reflexivity.
Qed.

(** The parser as a function of the line: the interface field by field, the
    diagnostics pair by pair. *)
Lemma parseNetworkConfig_wellFormed (config : string) (dg : diag.Diagnostics) :
  wellFormed (strings.Split config ",") = true ->
  parseNetworkConfig config dg =
  Ok (fieldwise config, diag.Append dg (flat_map failures (keyValues config))).
Proof.
  intros W. pose proof (parseNetworkConfig_outcome config dg) as O.
  rewrite W in O. destruct O as (dg' & O). rewrite O. do 2 f_equal.
  unfold parseNetworkConfig in O. rewrite (forPairs_wellFormed _ _ W) in O.
  injection O as O. apply (f_equal snd) in O. cbn [snd] in O.
  rewrite <- O, forPairs_diags. reflexivity.
Qed.

Lemma parseNetworkConfig_returns (config : string) (dg dg' : diag.Diagnostics)
  (iface : vmConfigDataSourceNetworkInterfaceModel) :
  parseNetworkConfig config dg = Ok (iface, dg') ->
  wellFormed (strings.Split config ",") = true /\
  iface = fieldwise config /\
  dg' = diag.Append dg (flat_map failures (keyValues config)).
Proof.
  intros H. destruct (wellFormed (strings.Split config ",")) eqn:W.
  - rewrite (parseNetworkConfig_wellFormed _ _ W) in H. injection H as <- <-. auto.
  - pose proof (parseNetworkConfig_outcome config dg) as O. rewrite W, H in O.
    discriminate O.
Qed.

Lemma failures_rejected (kv : string * string) (d : diag.Diagnostic) :
  In d (failures kv) <-> rejected kv d.
Proof.
  unfold failures, rejected. destruct kv as [k v]. cbn [fst snd].
  destruct (strconv.strIn k boolKeys) eqn:B.
  { apply strIn_In in B. split.
    - intros H. left. split; [exact B|].
      destruct (strconv.ParseBool v) as [b|err]; [destruct H|].
      destruct H as [<- | []]. eauto.
    - intros [(_ & err & E & ->) | [(Hk & _) | (Hk & _)]].
      + rewrite E. left. reflexivity.
      + exfalso. simpl in B, Hk. decompose [or] B; decompose [or] Hk; subst;
          try discriminate; contradiction.
      + exfalso. subst k. simpl in B. decompose [or] B; try discriminate; contradiction. }
  assert (~ In k boolKeys) as NB
    by (intros Hin; apply strIn_In in Hin; congruence).
  destruct (strconv.strIn k intKeys) eqn:I.
  { apply strIn_In in I. split.
    - intros H. right. left. split; [exact I|].
      destruct (strconv.ParseInt10 v 32) as [n|err]; [destruct H|].
      destruct H as [<- | []]. eauto.
    - intros [(Hk & _) | [(_ & err & E & ->) | (Hk & _)]].
      + contradiction.
      + rewrite E. left. reflexivity.
      + exfalso. subst k. simpl in I. decompose [or] I; try discriminate; contradiction. }
  assert (~ In k intKeys) as NI
    by (intros Hin; apply strIn_In in Hin; congruence).
  destruct (String.eqb_spec k "trunks") as [-> | NT].
  - split.
    + intros H. right. right. split; [reflexivity|].
      apply in_flat_map in H as (elem & Hin & H). unfold failedTrunk in H.
      destruct (strconv.ParseInt10 elem 32) as [n|err] eqn:E; [destruct H|].
      destruct H as [<- | []]. eauto.
    + intros [(Hk & _) | [(Hk & _) | (_ & elem & err & Hin & E & ->)]];
        try contradiction.
      apply in_flat_map. exists elem. split; [exact Hin|].
      unfold failedTrunk. rewrite E. left. reflexivity.
  - split; [intros [] | intros [(Hk & _) | [(Hk & _) | (Hk & _)]]; contradiction].
Qed.



(** X7: every value of a boolean or integer key, and every trunks element,
    that does not coerce is reported in the parser's collection at return, by
    an error titled "Unexpected VM Config Value" whose text names the key. *)
Theorem parser_reports_every_rejection (config : string) (dg dg' : diag.Diagnostics)
  (iface : vmConfigDataSourceNetworkInterfaceModel) :
  parseNetworkConfig config dg = Ok (iface, dg') ->
  forall kv d, In kv (keyValues config) -> rejected kv d ->
    In d dg' /\ diag.isError d = true /\ diag.summary d = "Unexpected VM Config Value".
Proof.
  intros H kv d Hin Hd. apply parseNetworkConfig_returns in H as (_ & _ & ->).
  split.
  - apply Append_keeps. right. apply in_flat_map. exists kv.
    split; [exact Hin | apply failures_rejected, Hd].
  - destruct Hd as [(_ & err & _ & ->) | [(_ & err & _ & ->) | (_ & e & err & _ & _ & ->)]];
      split; reflexivity.
Qed.

Lemma parser_reports_every_rejection_witness :
  exists iface dg',
    parseNetworkConfig "firewall=maybe,trunks=10;x" [] = Ok (iface, dg') /\
    In (unexpected "firewall" (strconv.syntaxError "ParseBool" "maybe")) dg' /\
    In (unexpected "trunks" (strconv.syntaxError "ParseInt" "x")) dg'.
Proof.
  eexists; eexists. split; [vm_compute; reflexivity|].
  pose proof (parser_reports_every_rejection "firewall=maybe,trunks=10;x" [] _ _
                ltac:(vm_compute; reflexivity)) as T.
  split.
  - apply (T ("firewall", "maybe")); [simpl; auto|].
    left. split; [simpl; auto|]. eexists. split; reflexivity.
  - apply (T ("trunks", "10;x")); [simpl; auto|].
    right. right. split; [reflexivity|].
    exists "x". eexists. split; [simpl; auto | split; reflexivity].
Defined.

(** * Writing a line and reading it back *)

Lemma Contains_app (a b : string) (c : ascii) :
  strings.Contains (a ++ b) c = strings.Contains a c || strings.Contains b c.
Proof.
  induction a as [|x a IH]; simpl; [reflexivity|].
  rewrite IH, orb_assoc. reflexivity.
Qed.

Lemma plain_spec (s : string) :
  plain s = true -> strings.Contains s "," = false /\ strings.Contains s "=" = false.
Proof.
  unfold plain. intros H. apply andb_true_iff in H as [H1 H2].
  apply negb_true_iff in H1, H2. auto.
Qed.

Lemma pairText_Split (kv : string * string) :
  plainPair kv = true ->
  strings.Split (pairText kv) "=" = [fst kv; snd kv] /\
  strings.Contains (pairText kv) "," = false /\
  strings.Contains (pairText kv) "=" = true.
Proof.
  destruct kv as [k v]. unfold plainPair, pairText. cbn [fst snd]. intros H.
  apply andb_true_iff in H as [Hk Hv].
  apply plain_spec in Hk as [Hk1 Hk2]. apply plain_spec in Hv as [Hv1 Hv2].
  change ("=" ++ v)%string with (String "=" v). repeat split.
  - rewrite (Split_at_first_sep _ _ _ Hk2), (Split_without_sep _ _ Hv2). reflexivity.
  - rewrite Contains_app. simpl. rewrite Hk1, Hv1. reflexivity.
  - rewrite Contains_app. simpl. apply orb_true_r.
Qed.

Lemma keyValue_pairText (kv : string * string) :
  plainPair kv = true -> (keyOf (pairText kv), valueOf (pairText kv)) = kv.
Proof.
  intros H. destruct (pairText_Split kv H) as (E & _). unfold keyOf, valueOf.
  rewrite E. destruct kv. reflexivity.
Qed.

Lemma joinLine_Split (kvs : list (string * string)) :
  kvs <> [] -> forallb plainPair kvs = true ->
  strings.Split (joinLine kvs) "," = map pairText kvs.
Proof.
  induction kvs as [|kv rest IH]; [contradiction|]. intros _ H.
  cbn [forallb] in H. apply andb_true_iff in H as [Hkv Hrest].
  destruct (pairText_Split kv Hkv) as (_ & Hcomma & _).
  destruct rest as [|kv' rest'].
  - simpl. apply Split_without_sep, Hcomma.
  - change (joinLine (kv :: kv' :: rest'))
      with (pairText kv ++ String "," (joinLine (kv' :: rest')))%string.
    rewrite (Split_at_first_sep _ _ _ Hcomma), IH; [reflexivity | discriminate | exact Hrest].
Qed.

Lemma joinLine_keyValues (kvs : list (string * string)) :
  kvs <> [] -> forallb plainPair kvs = true ->
  keyValues (joinLine kvs) = kvs /\
  wellFormed (strings.Split (joinLine kvs) ",") = true.
Proof.
  intros Hne H. unfold keyValues. rewrite (joinLine_Split kvs Hne H). clear Hne.
  induction kvs as [|kv rest IH]; [split; reflexivity|].
  cbn [forallb] in H. apply andb_true_iff in H as [Hkv Hrest].
  destruct (IH Hrest) as [E W]. cbn [map wellFormed forallb].
  rewrite (keyValue_pairText kv Hkv), E.
  destruct (pairText_Split kv Hkv) as (_ & _ & ->). split; [reflexivity | exact W].
Qed.






Lemma single_integer_pair (key : string)
  (field : vmConfigDataSourceNetworkInterfaceModel -> types.Int32)
  (v : string) (z : Z) (dg : diag.Diagnostics) :
  In (key, field) integerKeys -> plain v = true ->
  strconv.ParseInt10 v 32 = inl z ->
  exists iface,
    parseNetworkConfig (key ++ "=" ++ v) dg = Ok (iface, dg) /\
    field iface = types.Value z.
Proof.
  intros Hkey Hv E.
  destruct (ParseInt10_range _ _ E) as [_ Hz].
  assert (plainPair (key, v) = true) as Hp.
  { unfold plainPair. cbn [fst snd]. rewrite Hv, andb_true_r.
    simpl in Hkey. decompose [or] Hkey; try contradiction;
      match goal with H : (_, _) = (key, field) |- _ => injection H as <- <- end;
      reflexivity. }
  assert (forallb plainPair [(key, v)] = true) as Hall
    by (cbn [forallb]; rewrite Hp; reflexivity).
  destruct (joinLine_keyValues [(key, v)] ltac:(discriminate) Hall) as [EK W].
  change (joinLine [(key, v)]) with (key ++ "=" ++ v)%string in EK, W.
  exists (fieldwise (key ++ "=" ++ v)).
  rewrite (parseNetworkConfig_wellFormed _ dg W), EK.
  simpl in Hkey. decompose [or] Hkey; try contradiction;
    match goal with H : (_, _) = (key, field) |- _ => injection H as <- <- end;
    (split;
     [ do 2 f_equal; unfold failures, boolKeys, intKeys, strconv.strIn;
       cbn [flat_map fst snd existsb String.eqb Ascii.eqb Bool.eqb orb app];
       rewrite E; reflexivity
     | cbn [fieldwise MTU Queues Rate Tag]; rewrite EK;
       unfold lastUpdate, whenKey, asInt32, strconv.strIn;
       cbn [fold_left fst snd existsb String.eqb Ascii.eqb Bool.eqb orb orKeep];
       rewrite E; cbn [orKeep]; unfold types.Int32Value; rewrite Hz; reflexivity ]).
Qed.

(** X2: for each of [mtu], [queues], [rate] and [tag], a line [key=digits]
    whose decimal digits denote a number below 2^31 sets the field to that
    number, and [key=-digits] with a number up to 2^31 sets it to the negated
    number; neither raises a diagnostic. *)
Theorem decimal_value_read_back (key : string)
  (field : vmConfigDataSourceNetworkInterfaceModel -> types.Int32)
  (digits : string) (dg : diag.Diagnostics) :
  In (key, field) integerKeys -> digits <> "" -> allDigits digits = true ->
  ((decimalValue digits 0 < 2 ^ 31)%Z ->
   exists iface,
     parseNetworkConfig (key ++ "=" ++ digits) dg = Ok (iface, dg) /\
     field iface = types.Value (decimalValue digits 0)) /\
  ((decimalValue digits 0 <= 2 ^ 31)%Z ->
   exists iface,
     parseNetworkConfig (key ++ "=-" ++ digits) dg = Ok (iface, dg) /\
     field iface = types.Value (- decimalValue digits 0)%Z).
Proof.
  intros Hkey Hne Hd.
  destruct (ParseInt10_digits digits Hne Hd) as [Hpos Hneg].
  assert (plain digits = true) as Hplain.
  { unfold plain. rewrite !(allDigits_Contains _ _ Hd) by (simpl; auto). reflexivity. }
  split; intros Hv.
  - apply single_integer_pair; auto.
  - change (key ++ "=-" ++ digits)%string with (key ++ "=" ++ String "-" digits)%string.
    apply single_integer_pair; auto.
Qed.

Lemma decimal_value_read_back_witness :
  (exists iface,
     parseNetworkConfig "mtu=1500" [] = Ok (iface, []) /\
     MTU iface = types.Value 1500%Z) /\
  (exists iface,
     parseNetworkConfig "tag=-2147483648" [] = Ok (iface, []) /\
     Tag iface = types.Value (-2147483648)%Z).
Proof.
  split.
  - apply (decimal_value_read_back "mtu" MTU "1500" []);
      [simpl; auto | discriminate | reflexivity | reflexivity].
  - apply (decimal_value_read_back "tag" Tag "2147483648" []);
      [simpl; auto | discriminate | reflexivity | discriminate].
Defined.

(** * Pairs the parser ignores, and the order of pairs *)

Lemma lastUpdate_filter {X : Type} (upd : string * string -> option X)
  (keep : string * string -> bool) (kvs : list (string * string)) (init : X) :
  (forall kv, keep kv = false -> upd kv = None) ->
  lastUpdate upd (filter keep kvs) init = lastUpdate upd kvs init.
Proof.
  intros H. revert init. unfold lastUpdate.
  induction kvs as [|kv rest IH]; intros init; [reflexivity|].
  cbn [filter fold_left]. destruct (keep kv) eqn:K.
  - cbn [fold_left]. apply IH.
  - rewrite (H kv K). cbn [orKeep]. apply IH.
Qed.

Lemma whenKey_unrecognised {X : Type} (names : list string) (decode : string -> option X)
  (kv : string * string) :
  forallb recognised names = true ->
  recognisedPair kv = false -> whenKey names decode kv = None.
Proof.
  intros Hnames Hkv. unfold whenKey.
  destruct (strconv.strIn (fst kv) names) eqn:E; [|reflexivity].
  apply strIn_In in E. rewrite forallb_forall in Hnames.
  unfold recognisedPair in Hkv. rewrite (Hnames _ E) in Hkv. discriminate.
Qed.

Lemma failures_unrecognised (kv : string * string) :
  recognisedPair kv = false -> failures kv = [].
Proof.
  destruct kv as [k v]. unfold recognisedPair, recognised, failures, boolKeys, intKeys,
    strconv.strIn. cbn [fst snd existsb]. intros H.
  repeat (apply orb_false_iff in H as [? H]).
  repeat match goal with E : (_ =? _) = false |- _ => rewrite E; clear E end.
  reflexivity.
Qed.

Lemma flat_map_failures_filter (kvs : list (string * string)) :
  flat_map failures (filter recognisedPair kvs) = flat_map failures kvs.
Proof.
  induction kvs as [|kv rest IH]; [reflexivity|].
  cbn [filter flat_map]. destruct (recognisedPair kv) eqn:K.
  - cbn [flat_map]. now rewrite IH.
  - rewrite (failures_unrecognised _ K). exact IH.
Qed.

Ltac field_by_field :=
  unfold sameFields, fieldwise;
  cbn [Bridge Firewall HardwareAddress LinkDown Model MTU Queues Rate Tag Trunks].

(** X4: pairs with a key the parser does not know are ignored: two lines
    whose recognised pairs are the same, in the same order, give the same
    fields and the same diagnostics, whatever other pairs they hold. *)
Theorem unrecognised_pairs_ignored (config1 config2 : string)
  (dg d1 d2 : diag.Diagnostics) (i1 i2 : vmConfigDataSourceNetworkInterfaceModel) :
  parseNetworkConfig config1 dg = Ok (i1, d1) ->
  parseNetworkConfig config2 dg = Ok (i2, d2) ->
  filter recognisedPair (keyValues config1) = filter recognisedPair (keyValues config2) ->
  sameFields i1 i2 /\ d1 = d2.
Proof.
  intros H1 H2 E.
  apply parseNetworkConfig_returns in H1 as (_ & -> & ->).
  apply parseNetworkConfig_returns in H2 as (_ & -> & ->).
  split.
  - field_by_field.
    repeat split;
      match goal with
      | |- lastUpdate ?u _ ?i = _ =>
          rewrite <- (lastUpdate_filter u recognisedPair (keyValues config1) i),
                  <- (lastUpdate_filter u recognisedPair (keyValues config2) i);
          [rewrite E; reflexivity | |];
          intros kv; apply whenKey_unrecognised; reflexivity
      end.
  - rewrite <- (flat_map_failures_filter (keyValues config1)),
            <- (flat_map_failures_filter (keyValues config2)), E.
    reflexivity.
Qed.

Lemma unrecognised_pairs_ignored_witness :
  exists i1 i2 d,
    parseNetworkConfig "bridge=vmbr0,mtu=x" [] = Ok (i1, d) /\
    parseNetworkConfig "foo=1,bridge=vmbr0,bar=,mtu=x,macaddress=zz" [] = Ok (i2, d) /\
    sameFields i1 i2.
Proof.
  eexists; eexists; eexists.
  assert (forall (A B C : Prop), A -> B -> (A -> B -> C) -> A /\ B /\ C) as pack
    by tauto.
  apply pack; [vm_compute; reflexivity | vm_compute; reflexivity |].
  intros H1 H2.
  exact (proj1 (unrecognised_pairs_ignored _ _ _ _ _ _ _ H1 H2 eq_refl)).
Defined.





(** * The lookup, stage by stage *)

Lemma parseNets_lines (nets : list (string * string)) (dg : diag.Diagnostics)
  (ifaces : list vmConfigDataSourceNetworkInterfaceModel) :
  parseNets nets dg ifaces =
  if allWellFormed (linesToParse nets)
  then Ok (ifaces ++ map fieldwise (linesToParse nets))
  else Panic (IndexOutOfRange 1 1).
Proof.
  revert ifaces. unfold linesToParse.
  induction nets as [|[name line] rest IH]; intros ifaces.
  - simpl. rewrite app_nil_r. reflexivity.
  - cbn [parseNets map snd filter]. destruct (line =? "") eqn:E; cbn [negb].
    + apply IH.
    + cbn [allWellFormed forallb map].
      pose proof (parseNetworkConfig_outcome line dg) as O.
      destruct (wellFormed (strings.Split line ",")).
      * destruct O as (dg' & ->). cbn [bind fst andb]. rewrite IH.
        fold (allWellFormed (filter (fun l => negb (l =? "")) (map snd rest))).
        destruct (allWellFormed _); [|reflexivity].
        rewrite <- app_assoc. reflexivity.
      * rewrite O. reflexivity.
Qed.

Section ReadStages.

Variable api : proxmox.API.
Variable d : vmConfigDataSource.
Variable pd : proxmoxveProviderData.
Variable req : datasource.ReadRequest.
Variable filter : vmConfigDataSourceFilterModel.
Variable name : string.
Variable vmID : Z.

Hypothesis configured : providerData d = Some pd.
Hypothesis decoded : diag.HasError (datasource.ConfigDiags req) = false.
Hypothesis hasFilter : Filter (datasource.Config req) = Some filter.
Hypothesis hasName : NodeName filter = types.Value name.
Hypothesis hasID : VMID filter = types.Value vmID.

Let dg0 := diag.Append [] (datasource.ConfigDiags req).

Lemma dg0_clean : diag.HasError dg0 = false.
Proof. unfold dg0. rewrite diagFacts.HasError_Append. exact decoded. Qed.

Lemma Read_after_preconditions :
  Read api d req =
  match proxmox.Client_Node api (client pd) name with
  | Panic e => Panic e
  | Ok (_, Some err) =>
      returnNoState
        (diag.AddError dg0 "Proxmox VE API: Failed to Locate Node"
           (diag.Sprintf
              ("Failed to locate the cluster node '%s':" ++ newlineTab ++ "%s")
              [diag.OpString name; diag.OpString err]))
        [proxmox.CallNode (client pd) name]
  | Ok (node, None) =>
      let calls := [proxmox.CallNode (client pd) name;
                    proxmox.CallVirtualMachine node vmID] in
      match proxmox.Node_VirtualMachine api node vmID with
      | Panic e => Panic e
      | Ok (_, Some err) =>
          returnNoState
            (diag.AddError dg0 "Proxmox VE API: Failed to Retrieve VM"
               (diag.Sprintf
                  ("Failed to retrieve the virtual machine with the ID '%d':"
                   ++ newlineTab ++ "%s")
                  [diag.OpInt vmID; diag.OpString err]))
            calls
      | Ok (None, None) => Panic NilPointerDereference
      | Ok (Some vm, None) =>
          ifaces <-
            match proxmox.Config vm with
            | Some vmc => parseNets (proxmox.MergeNets vmc) dg0 []
            | None => Ok []
            end ;;
          Ok ({| datasource.Diagnostics := dg0;
                 datasource.State := Some (lookupState filter vm ifaces) |}, calls)
      end
  end.
Proof.
  unfold Read. rewrite configured. cbv zeta. fold dg0.
  rewrite dg0_clean, hasFilter, hasName, hasID. cbn [types.IsNull types.IsUnknown orb
    types.ValueString types.ValueInt32].
  destruct (proxmox.Client_Node api (client pd) name) as [[node [err|]]|e];
    cbn [bind fst snd]; try reflexivity.
  cbn [app].
  destruct (proxmox.Node_VirtualMachine api node vmID) as [[[vm|] [err|]]|e];
    cbn [bind fst snd]; try reflexivity.
  unfold lookupState. rewrite hasID.
  destruct (match proxmox.Config vm with Some _ => _ | None => _ end); reflexivity.
Qed.

End ReadStages.

(** * The lookup: further properties *)

Lemma Read_slot_lines (api : proxmox.API) (d : vmConfigDataSource)
  (pd : proxmoxveProviderData) (req : datasource.ReadRequest)
  (filter : vmConfigDataSourceFilterModel) (name : string) (vmID : Z)
  (node : option proxmox.Node) (vm : proxmox.VirtualMachine) :
  providerData d = Some pd ->
  diag.HasError (datasource.ConfigDiags req) = false ->
  Filter (datasource.Config req) = Some filter ->
  NodeName filter = types.Value name ->
  VMID filter = types.Value vmID ->
  proxmox.Client_Node api (client pd) name = Ok (node, None) ->
  proxmox.Node_VirtualMachine api node vmID = Ok (Some vm, None) ->
  Read api d req =
  if allWellFormed (slotLines vm)
  then Ok ({| datasource.Diagnostics := diag.Append [] (datasource.ConfigDiags req);
              datasource.State :=
                Some (lookupState filter vm (map fieldwise (slotLines vm))) |},
           [proxmox.CallNode (client pd) name; proxmox.CallVirtualMachine node vmID])
  else Panic (IndexOutOfRange 1 1).
Proof.
  intros Hpd Hdg Hf Hn Hid Hnode Hvm.
  rewrite (Read_after_preconditions api d pd req filter name vmID Hpd Hdg Hf Hn Hid).
  rewrite Hnode. cbv zeta. rewrite Hvm. unfold slotLines.
  destruct (proxmox.Config vm) as [vmc|]; [|reflexivity].
  rewrite parseNets_lines. destruct (allWellFormed _); reflexivity.
Qed.

(** X8: when the node request or the VM request returns an error, whatever
    pointer comes with it, the lookup stops there with exactly one error
    carrying the failure's text after a line feed and a tab, and stores no
    state; after a failed node request no VM request is sent. *)
Theorem Read_remote_failure (api : proxmox.API) (d : vmConfigDataSource)
  (pd : proxmoxveProviderData) (req : datasource.ReadRequest) (name : string) (vmID : Z) :
  providerData d = Some pd ->
  validLookup req name vmID ->
  (forall node err,
     proxmox.Client_Node api (client pd) name = Ok (node, Some err) ->
     exists dgs,
       Read api d req =
         Ok ({| datasource.Diagnostics := dgs; datasource.State := None |},
             [proxmox.CallNode (client pd) name]) /\
       diag.Errors dgs =
         [diag.NewErrorDiagnostic "Proxmox VE API: Failed to Locate Node"
            (diag.Sprintf
               ("Failed to locate the cluster node '%s':" ++ newlineTab ++ "%s")
               [diag.OpString name; diag.OpString err])]) /\
  (forall node vm err,
     proxmox.Client_Node api (client pd) name = Ok (node, None) ->
     proxmox.Node_VirtualMachine api node vmID = Ok (vm, Some err) ->
     exists dgs,
       Read api d req =
         Ok ({| datasource.Diagnostics := dgs; datasource.State := None |},
             [proxmox.CallNode (client pd) name; proxmox.CallVirtualMachine node vmID]) /\
       diag.Errors dgs =
         [diag.NewErrorDiagnostic "Proxmox VE API: Failed to Retrieve VM"
            (diag.Sprintf
               ("Failed to retrieve the virtual machine with the ID '%d':"
                ++ newlineTab ++ "%s")
               [diag.OpInt vmID; diag.OpString err])]).
Proof.
  intros Hpd (Hdg & filter & Hf & Hn & Hid).
  pose proof (Read_after_preconditions api d pd req filter name vmID Hpd Hdg Hf Hn Hid) as R.
  pose proof (diagFacts.Errors_decoded _ Hdg) as E0.
  split.
  - intros node err Hnode. rewrite Hnode in R. eexists. split; [exact R|].
    rewrite diagFacts.Errors_AddError, E0. reflexivity.
  - intros node vm err Hnode Hvm. rewrite Hnode in R. cbv zeta in R. rewrite Hvm in R.
    destruct vm; (eexists; split; [exact R|]);
      rewrite diagFacts.Errors_AddError, E0; reflexivity.
Qed.

Lemma Read_remote_failure_witness :
  exists dgs,
    Read unreachableAPI exampleDataSource
      (lookup (types.StringValue "pve1") (types.Int32Value 100)) =
      Ok ({| datasource.Diagnostics := dgs; datasource.State := None |},
          [proxmox.CallNode (newClient exampleConfig) "pve1"]) /\
    diag.Errors dgs =
      [diag.NewErrorDiagnostic "Proxmox VE API: Failed to Locate Node"
         (diag.Sprintf
            ("Failed to locate the cluster node '%s':" ++ newlineTab ++ "%s")
            [diag.OpString "pve1"; diag.OpString "connection refused"])].
Proof.
  refine (proj1 (Read_remote_failure unreachableAPI exampleDataSource _
                   (lookup (types.StringValue "pve1") (types.Int32Value 100))
                   "pve1" 100 eq_refl _) None "connection refused" eq_refl).
  split; [reflexivity|]. eexists. repeat split.
Defined.

(** X9: when both requests return no error, the second one with a VM record,
    and every pair of every non-empty slot line holds an ['='], the lookup
    stores a state whose name, node and status are the VM record's and whose
    interfaces are the parsed non-empty lines, one per line, in the order the
    slots are visited; empty lines are skipped, and a record without
    configuration object gives no interface.  No error is reported beyond
    what decoding the request left. *)
Theorem Read_interfaces (api : proxmox.API) (d : vmConfigDataSource)
  (pd : proxmoxveProviderData) (req : datasource.ReadRequest) (name : string) (vmID : Z)
  (node : option proxmox.Node) (vm : proxmox.VirtualMachine) :
  providerData d = Some pd ->
  validLookup req name vmID ->
  proxmox.Client_Node api (client pd) name = Ok (node, None) ->
  proxmox.Node_VirtualMachine api node vmID = Ok (Some vm, None) ->
  allWellFormed (slotLines vm) = true ->
  exists resp data,
    Read api d req =
      Ok (resp, [proxmox.CallNode (client pd) name; proxmox.CallVirtualMachine node vmID]) /\
    diag.HasError (datasource.Diagnostics resp) = false /\
    (exists state, datasource.State resp = Some state /\ Data state = Some data) /\
    Name data = types.StringValue (proxmox.Name vm) /\
    Node data = types.StringValue (proxmox.VMNode vm) /\
    Status data = types.StringValue (proxmox.Status vm) /\
    NetworkInterfaces data = map fieldwise (slotLines vm) /\
    map RawConfig (NetworkInterfaces data) = map types.StringValue (slotLines vm) /\
    (proxmox.Config vm = None -> NetworkInterfaces data = []).
Proof.
  intros Hpd (Hdg & filter & Hf & Hn & Hid) Hnode Hvm Hwf.
  rewrite (Read_slot_lines api d pd req filter name vmID node vm Hpd Hdg Hf Hn Hid Hnode Hvm).
  rewrite Hwf. eexists; eexists. split; [reflexivity|].
  cbn [datasource.Diagnostics datasource.State].
  split; [rewrite diagFacts.HasError_Append; exact Hdg|].
  split; [eexists; split; reflexivity|].
  cbn [Name Node Status NetworkInterfaces]. repeat split.
  - rewrite map_map. reflexivity.
  - intros Hnone. unfold slotLines. rewrite Hnone. reflexivity.
Qed.

Lemma Read_interfaces_witness :
  exists resp data calls,
    Read (exampleAPI [("net0", "virtio=AA:BB:CC:DD:EE:FF,bridge=vmbr0,firewall=1");
                      ("net1", ""); ("net2", "bridge=vmbr1,tag=x")])
      exampleDataSource (lookup (types.StringValue "pve1") (types.Int32Value 100)) =
      Ok (resp, calls) /\
    (exists state, datasource.State resp = Some state /\ Data state = Some data) /\
    map RawConfig (NetworkInterfaces data) =
      [types.StringValue "virtio=AA:BB:CC:DD:EE:FF,bridge=vmbr0,firewall=1";
       types.StringValue "bridge=vmbr1,tag=x"].
Proof.
  destruct (Read_interfaces
              (exampleAPI [("net0", "virtio=AA:BB:CC:DD:EE:FF,bridge=vmbr0,firewall=1");
                           ("net1", ""); ("net2", "bridge=vmbr1,tag=x")])
              exampleDataSource _
              (lookup (types.StringValue "pve1") (types.Int32Value 100)) "pve1" 100
              _ _ eq_refl
              (conj eq_refl (ex_intro _ _ (conj eq_refl (conj eq_refl eq_refl))))
              eq_refl eq_refl eq_refl)
    as (resp & data & Hread & _ & Hstate & _ & _ & _ & _ & Hraw & _).
  exists resp, data. eexists. split; [exact Hread|]. split; [exact Hstate | exact Hraw].
Defined.

(** X10: one pair without ['='] in any non-empty slot line makes the whole
    lookup fault, after both requests were answered: no state and no
    diagnostic is produced. *)
Theorem Read_faults_on_malformed_line (api : proxmox.API) (d : vmConfigDataSource)
  (pd : proxmoxveProviderData) (req : datasource.ReadRequest) (name : string) (vmID : Z)
  (node : option proxmox.Node) (vm : proxmox.VirtualMachine) (line pair : string) :
  providerData d = Some pd ->
  validLookup req name vmID ->
  proxmox.Client_Node api (client pd) name = Ok (node, None) ->
  proxmox.Node_VirtualMachine api node vmID = Ok (Some vm, None) ->
  In line (slotLines vm) ->
  In pair (strings.Split line ",") -> strings.Contains pair "=" = false ->
  Read api d req = Panic (IndexOutOfRange 1 1).
Proof.
  intros Hpd (Hdg & filter & Hf & Hn & Hid) Hnode Hvm Hline Hpair Hno.
  rewrite (Read_slot_lines api d pd req filter name vmID node vm Hpd Hdg Hf Hn Hid Hnode Hvm).
  destruct (allWellFormed (slotLines vm)) eqn:W; [|reflexivity].
  unfold allWellFormed in W. rewrite forallb_forall in W. specialize (W line Hline).
  assert (wellFormed (strings.Split line ",") = false) as F
    by (apply wellFormed_false_iff; eauto).
  congruence.
Qed.

Lemma Read_faults_on_malformed_line_witness :
  Read (exampleAPI [("net0", "bridge=vmbr0"); ("net1", "bridge=vmbr1,firewall")])
    exampleDataSource (lookup (types.StringValue "pve1") (types.Int32Value 100)) =
  Panic (IndexOutOfRange 1 1).
Proof.
  apply (Read_faults_on_malformed_line
           (exampleAPI [("net0", "bridge=vmbr0"); ("net1", "bridge=vmbr1,firewall")])
           exampleDataSource _
           (lookup (types.StringValue "pve1") (types.Int32Value 100)) "pve1" 100 _ _
           "bridge=vmbr1,firewall" "firewall" eq_refl
           (conj eq_refl (ex_intro _ _ (conj eq_refl (conj eq_refl eq_refl))))
           eq_refl eq_refl);
    [simpl; auto | simpl; auto | reflexivity].
Defined.

Lemma decoded_clean (new : list diag.Diagnostic) :
  diag.HasError (diag.Append [] new) = diag.HasError new.
Proof. apply diagFacts.HasError_Append. Qed.

(** X11: a lookup that returns either stores a state or reports an error,
    never both and never neither. *)
Theorem Read_state_iff_no_error (api : proxmox.API) (d : vmConfigDataSource)
  (req : datasource.ReadRequest) (resp : datasource.ReadResponse)
  (calls : list proxmox.Call) :
  Read api d req = Ok (resp, calls) ->
  (datasource.State resp <> None <-> diag.HasError (datasource.Diagnostics resp) = false).
Proof.
  unfold Read, returnNoState. intros H.
  destruct (providerData d) as [pd|]; [|discriminate].
  cbv zeta in H.
  destruct (diag.HasError (diag.Append [] (datasource.ConfigDiags req))) eqn:E0.
  - injection H as <- _. cbn [datasource.State datasource.Diagnostics].
    rewrite E0. split; congruence.
  - split_run H; try discriminate H; injection H as <- _;
      cbn [datasource.State datasource.Diagnostics];
      rewrite ?HasError_AddError, ?E0; split; congruence.
Qed.

Lemma Read_state_iff_no_error_witness :
  exists resp calls,
    Read unreachableAPI exampleDataSource
      (lookup (types.StringValue "pve1") (types.Int32Value 100)) = Ok (resp, calls) /\
    datasource.State resp = None /\
    diag.HasError (datasource.Diagnostics resp) = true.
Proof.
  eexists; eexists.
  assert (forall (A B C : Prop), A -> (A -> B /\ C) -> A /\ B /\ C) as pack by tauto.
  apply pack; [vm_compute; reflexivity|]. intros H.
  pose proof (Read_state_iff_no_error _ _ _ _ _ H) as [_ T].
  split; [reflexivity|].
  destruct (diag.HasError _) eqn:E; [reflexivity|].
  elim (T eq_refl). reflexivity.
Defined.



(** * The connection: further properties *)

Lemma supplied_of_nonempty (v : types.String) :
  (types.ValueString v =? "") = false -> supplied v.
Proof.
  destruct v as [| |s]; simpl; intros H; try discriminate H.
  exists s. split; [reflexivity | now apply String.eqb_neq].
Qed.

(** The ways [Configure] ends: without request, handle or success; or with
    the one version request, whose answer decides the rest. *)
Lemma Configure_analysis (api : proxmox.API) (p : proxmoxveProvider)
  (req : provider.ConfigureRequest) :
  let config := provider.Config req in
  let run := Configure api p req in
  (snd run = [] /\
   exists resp,
     fst run = Ok resp /\ diag.HasError (provider.Diagnostics resp) = true /\
     provider.DataSourceData resp = None /\ provider.ResourceData resp = None) \/
  (diag.HasError (provider.ConfigDiags req) = false /\
   (forall f, supplied (fieldValue config f)) /\
   snd run = [proxmox.CallVersion (newClient config)] /\
   match proxmox.Client_Version api (newClient config) with
   | Panic e => fst run = Panic e
   | Ok (_, Some _) =>
       exists resp,
         fst run = Ok resp /\ diag.HasError (provider.Diagnostics resp) = true /\
         provider.DataSourceData resp = None /\ provider.ResourceData resp = None
   | Ok (None, None) => fst run = Panic NilPointerDereference
   | Ok (Some _, None) =>
       exists resp,
         fst run = Ok resp /\ diag.HasError (provider.Diagnostics resp) = false /\
         provider.DataSourceData resp = Some (handle p config) /\
         provider.ResourceData resp = Some (handle p config)
   end).
Proof.
  intros config run. subst run.
  destruct (diag.HasError (provider.ConfigDiags req)) eqn:Hdg.
  { left. unfold Configure. cbv zeta. rewrite decoded_clean, Hdg.
    cbn [returnNoData fst snd]. split; [reflexivity|]. eexists. split; [reflexivity|].
    cbn [provider.Diagnostics provider.DataSourceData provider.ResourceData].
    rewrite decoded_clean. auto. }
  pose proof (diagFacts.Errors_decoded _ Hdg) as E0.
  destruct (diag.Errors (checkUnknown config (diag.Append [] (provider.ConfigDiags req))))
    as [|e es] eqn:EU.
  2:{ left. rewrite (Configure_returns_unknown api p req Hdg) by (fold config; congruence).
      fold config.
      cbn [returnNoData fst snd]. split; [reflexivity|]. eexists. split; [reflexivity|].
      cbn [provider.Diagnostics provider.DataSourceData provider.ResourceData].
      rewrite diagFacts.HasError_Errors, EU. auto. }
  destruct (diag.Errors (checkMissing config (checkUnknown config
             (diag.Append [] (provider.ConfigDiags req))))) as [|e es] eqn:EM.
  2:{ left. rewrite (Configure_returns_missing api p req Hdg EU) by (fold config; congruence).
      fold config.
      cbn [returnNoData fst snd]. split; [reflexivity|]. eexists. split; [reflexivity|].
      cbn [provider.Diagnostics provider.DataSourceData provider.ResourceData].
      rewrite diagFacts.HasError_Errors, EM. auto. }
  right. split; [reflexivity|]. split.
  { pose proof (Errors_checkMissing config _ EU) as E. rewrite EM in E.
    intros f. apply supplied_of_nonempty.
    destruct (types.ValueString (APITokenID config) =? "") eqn:MI,
      (types.ValueString (APITokenSecret config) =? "") eqn:MS,
      (types.ValueString (APITokenUsername config) =? "") eqn:MU,
      (types.ValueString (Endpoint config) =? "") eqn:ME; try discriminate E.
    destruct f; assumption. }
  rewrite (Configure_reaches_version api p req Hdg EU EM). fold config.
  destruct (proxmox.Client_Version api (newClient config)) as [[[v|] [err|]]|e];
    cbn [returnNoData fst snd]; (split; [reflexivity|]); try reflexivity;
    eexists; (split; [reflexivity|]);
    cbn [provider.Diagnostics provider.DataSourceData provider.ResourceData];
    (split; [|split; reflexivity]);
    solve [apply HasError_AddError | apply diagFacts.no_Errors, EM].
Qed.

(** X13: [Configure] either returns or faults.  When it returns, it
    publishes a handle exactly when it reports no error; the handle is the
    same for data sources and for resources and holds the client built from
    the configuration, the configured endpoint and the provider.  It faults
    only after the version request was sent for a configuration that passed
    every check: when the request itself faults, or when it returns neither
    version metadata nor an error. *)
Theorem Configure_handle_iff_no_error (api : proxmox.API) (p : proxmoxveProvider)
  (req : provider.ConfigureRequest) :
  let config := provider.Config req in
  match fst (Configure api p req) with
  | Ok resp =>
      (provider.DataSourceData resp <> None <->
       diag.HasError (provider.Diagnostics resp) = false) /\
      provider.ResourceData resp = provider.DataSourceData resp /\
      (forall data, provider.DataSourceData resp = Some data -> data = handle p config)
  | Panic e =>
      diag.HasError (provider.ConfigDiags req) = false /\
      (forall f, supplied (fieldValue config f)) /\
      snd (Configure api p req) = [proxmox.CallVersion (newClient config)] /\
      (proxmox.Client_Version api (newClient config) = Panic e \/
       proxmox.Client_Version api (newClient config) = Ok (None, None) /\
       e = NilPointerDereference)
  end.
Proof.
  intros config.
  destruct (Configure_analysis api p req)
    as [(_ & resp & -> & He & Hd & Hr) | (Hdg & Hs & Hc & H)].
  - rewrite He, Hd, Hr. repeat split; congruence.
  - fold config in Hs, Hc, H.
    destruct (proxmox.Client_Version api (newClient config)) as [[[v|] [err|]]|e];
      cbv beta iota in H;
      try (destruct H as (resp & -> & He & Hd & Hr); rewrite He, Hd, Hr;
           repeat split; congruence);
      rewrite H; repeat split; auto.
Qed.

(** X14: [Configure] sends at most one request, the version request, and
    only after the configuration decoded without error and all four of
    endpoint, token username, token ID and token secret are known and
    non-empty. *)
Theorem Configure_requests (api : proxmox.API) (p : proxmoxveProvider)
  (req : provider.ConfigureRequest) :
  let config := provider.Config req in
  let calls := snd (Configure api p req) in
  calls = [] \/
  (calls = [proxmox.CallVersion (newClient config)] /\
   diag.HasError (provider.ConfigDiags req) = false /\
   forall f, supplied (fieldValue config f)).
Proof.
  intros config calls. subst calls.
  destruct (Configure_analysis api p req) as [(Hc & _) | (Hdg & Hs & Hc & _)]; auto.
Qed.

(** X15: the client behind every request of [Configure] talks to the
    configured endpoint followed by [/api2/json], authenticates with the
    token [username!id] and the configured secret, and skips certificate
    verification exactly when the ignore flag is known and true (a null or
    unknown flag keeps verification on). *)
Theorem Configure_client_settings (api : proxmox.API) (p : proxmoxveProvider)
  (req : provider.ConfigureRequest) (c : proxmox.Client) :
  let config := provider.Config req in
  In (proxmox.CallVersion c) (snd (Configure api p req)) ->
  exists endpoint username id secret,
    Endpoint config = types.Value endpoint /\
    APITokenUsername config = types.Value username /\
    APITokenID config = types.Value id /\
    APITokenSecret config = types.Value secret /\
    proxmox.baseURL c = (endpoint ++ "/api2/json")%string /\
    proxmox.tokenID c = (username ++ "!" ++ id)%string /\
    proxmox.tokenSecret c = secret /\
    (proxmox.InsecureSkipVerify c = true <->
     IgnoreUntrustedSSLCertificate config = types.Value true).
Proof.
  intros config Hin.
  destruct (Configure_analysis api p req) as [(Hc & _) | (_ & Hs & Hc & _)];
    rewrite Hc in Hin; [destruct Hin|].
  destruct Hin as [Hin | []]. injection Hin as <-.
  destruct (Hs FieldEndpoint) as (e & He & _).
  destruct (Hs FieldAPITokenUsername) as (u & Hu & _).
  destruct (Hs FieldAPITokenID) as (i & Hi & _).
  destruct (Hs FieldAPITokenSecret) as (s & Hsec & _).
  cbn [fieldValue] in He, Hu, Hi, Hsec. fold config in He, Hu, Hi, Hsec.
  exists e, u, i, s. unfold newClient. fold config.
  cbn [proxmox.baseURL proxmox.tokenID proxmox.tokenSecret proxmox.InsecureSkipVerify].
  rewrite He, Hu, Hi, Hsec. repeat split; try reflexivity.
  - destruct (IgnoreUntrustedSSLCertificate config) as [| |[]]; simpl; congruence.
  - intros ->. reflexivity.
Qed.

Lemma Configure_client_settings_witness :
  exists c,
    In (proxmox.CallVersion c)
       (snd (Configure (exampleAPI []) {| version := "dev" |}
               (configureRequest exampleConfig))) /\
    proxmox.baseURL c = "https://pve1:8006/api2/json" /\
    proxmox.tokenID c = "root@pam!tf" /\
    proxmox.InsecureSkipVerify c = true.
Proof.
  exists (newClient exampleConfig).
  assert (In (proxmox.CallVersion (newClient exampleConfig))
            (snd (Configure (exampleAPI []) {| version := "dev" |}
                    (configureRequest exampleConfig)))) as Hin
    by (vm_compute; auto).
  split; [exact Hin|].
  destruct (Configure_client_settings _ _ _ _ Hin)
    as (e & u & i & s & He & Hu & Hi & _ & Hurl & Htok & _ & Htls).
  injection He as <-. injection Hu as <-. injection Hi as <-.
  split; [exact Hurl|]. split; [exact Htok|]. apply Htls. reflexivity.
Defined.

(** With a known token ID, no run of [Configure] that returns reports the
    unknown-username error. *)
Lemma known_token_id_no_username_error (api : proxmox.API) (p : proxmoxveProvider)
  (req : provider.ConfigureRequest) (resp : provider.ConfigureResponse) :
  diag.HasError (provider.ConfigDiags req) = false ->
  types.IsUnknown (APITokenID (provider.Config req)) = false ->
  fst (Configure api p req) = Ok resp ->
  ~ In "Unknown Proxmox VE API Token Username"
       (errorsOf FieldAPITokenUsername (provider.Diagnostics resp)).
Proof.
  intros Hdg UI. set (config := provider.Config req) in *.
  pose proof (diagFacts.Errors_decoded _ Hdg) as E0.
  pose proof (Errors_checkUnknown config _ E0) as EU. rewrite UI in EU.
  destruct (types.IsUnknown (APITokenSecret config)) eqn:US,
    (types.IsUnknown (Endpoint config)) eqn:UE;
    try (rewrite (Configure_returns_unknown api p req Hdg)
           by (fold config; rewrite EU; discriminate);
         fold config; unfold returnNoData, errorsOf, diag.ErrorsAt;
         cbn [fst]; intros Hr; injection Hr as <-;
         cbn [provider.Diagnostics]; rewrite EU;
         vm_compute; intuition discriminate).
  cbn [when app] in EU.
  pose proof (Errors_checkMissing config _ EU) as EM.
  destruct (diag.Errors (checkMissing config (checkUnknown config
             (diag.Append [] (provider.ConfigDiags req))))) as [|e es] eqn:EM'.
  - rewrite (Configure_reaches_version api p req Hdg EU EM'). fold config.
    unfold errorsOf, diag.ErrorsAt.
    destruct (proxmox.Client_Version api (newClient config)) as [[[v|] [err|]]|e];
      cbn [returnNoData fst]; intros Hr; try discriminate Hr; injection Hr as <-;
      cbn [provider.Diagnostics];
      rewrite ?diagFacts.Errors_AddError, EM'; vm_compute; intuition discriminate.
  - rewrite (Configure_returns_missing api p req Hdg EU)
      by (fold config; rewrite EM'; discriminate).
    fold config. unfold returnNoData, errorsOf, diag.ErrorsAt.
    cbn [fst]. intros Hr. injection Hr as <-.
    cbn [provider.Diagnostics]. rewrite EM', EM.
    destruct (types.ValueString (APITokenID config) =? ""),
      (types.ValueString (APITokenSecret config) =? ""),
      (types.ValueString (APITokenUsername config) =? ""),
      (types.ValueString (Endpoint config) =? "");
      vm_compute; intuition discriminate.
Qed.

(** X16: the "Unknown Proxmox VE API Token Username" error is driven by the
    token ID, not by the username: after a clean decoding it is reported
    (against [api_token_username]) exactly when [api_token_id] is unknown.
    With an unknown token ID [Configure] returns and reports it; a run that
    reports it has an unknown token ID. *)
Theorem unknown_username_error_follows_token_id (api : proxmox.API)
  (p : proxmoxveProvider) (req : provider.ConfigureRequest) :
  diag.HasError (provider.ConfigDiags req) = false ->
  let config := provider.Config req in
  (types.IsUnknown (APITokenID config) = true ->
   exists resp,
     fst (Configure api p req) = Ok resp /\
     In "Unknown Proxmox VE API Token Username"
        (errorsOf FieldAPITokenUsername (provider.Diagnostics resp))) /\
  (forall resp,
     fst (Configure api p req) = Ok resp ->
     (In "Unknown Proxmox VE API Token Username"
         (errorsOf FieldAPITokenUsername (provider.Diagnostics resp)) <->
      types.IsUnknown (APITokenID config) = true)).
Proof.
  intros Hdg config.
  pose proof (diagFacts.Errors_decoded _ Hdg) as E0.
  pose proof (Errors_checkUnknown config _ E0) as EU.
  assert (types.IsUnknown (APITokenID config) = true ->
          exists resp,
            fst (Configure api p req) = Ok resp /\
            In "Unknown Proxmox VE API Token Username"
               (errorsOf FieldAPITokenUsername (provider.Diagnostics resp))) as Hthere.
  { intros UI. rewrite UI in EU.
    rewrite (Configure_returns_unknown api p req Hdg)
      by (fold config; rewrite EU; discriminate).
    fold config. unfold returnNoData. eexists. split; [reflexivity|].
    unfold errorsOf, diag.ErrorsAt. cbn [provider.Diagnostics]. rewrite EU.
    destruct (types.IsUnknown (APITokenSecret config)),
      (types.IsUnknown (Endpoint config)); vm_compute; intuition. }
  split; [exact Hthere|].
  intros resp Hr.
  destruct (types.IsUnknown (APITokenID config)) eqn:UI.
  - destruct (Hthere eq_refl) as (resp' & Hr' & Hin).
    assert (resp' = resp) as <- by congruence. tauto.
  - split; [|discriminate]. intros Hin.
    elim (known_token_id_no_username_error api p req resp Hdg UI Hr Hin).
Qed.

Lemma unknown_username_error_follows_token_id_witness :
  exists resp,
    fst (Configure unreachableAPI {| version := "dev" |}
           (configureRequest
              {| APITokenID := types.Unknown;
                 APITokenSecret := types.StringValue "s";
                 APITokenUsername := types.StringValue "root@pam";
                 Endpoint := types.StringValue "https://pve1:8006";
                 IgnoreUntrustedSSLCertificate := types.Null |})) = Ok resp /\
    In "Unknown Proxmox VE API Token Username"
       (errorsOf FieldAPITokenUsername (provider.Diagnostics resp)).
Proof.
  apply (unknown_username_error_follows_token_id unreachableAPI {| version := "dev" |}
           (configureRequest
              {| APITokenID := types.Unknown;
                 APITokenSecret := types.StringValue "s";
                 APITokenUsername := types.StringValue "root@pam";
                 Endpoint := types.StringValue "https://pve1:8006";
                 IgnoreUntrustedSSLCertificate := types.Null |}) eq_refl).
  reflexivity.
Defined.

(** * Provider, data source and lookup together *)

Lemma Read_precondition_cases (api : proxmox.API) (d : vmConfigDataSource)
  (pd : proxmoxveProviderData) (req : datasource.ReadRequest) :
  providerData d = Some pd ->
  (exists dgs,
     Read api d req = Ok ({| datasource.Diagnostics := dgs; datasource.State := None |}, [])) \/
  (exists name vmID, validLookup req name vmID).
Proof.
  intros Hpd. unfold validLookup.
  destruct (diag.HasError (datasource.ConfigDiags req)) eqn:Hdg.
  { left. unfold Read, returnNoState. rewrite Hpd. cbv zeta.
    rewrite decoded_clean, Hdg. eauto. }
  destruct (Filter (datasource.Config req)) as [filter|] eqn:Hf.
  2:{ left. unfold Read, returnNoState. rewrite Hpd. cbv zeta.
      rewrite decoded_clean, Hdg, Hf. eauto. }
  destruct (NodeName filter) as [| |name] eqn:Hn;
    try solve [left; unfold Read, returnNoState; rewrite Hpd; cbv zeta;
               rewrite decoded_clean, Hdg, Hf, Hn; cbn [types.IsNull types.IsUnknown orb];
               eauto].
  destruct (VMID filter) as [| |vmID] eqn:Hid;
    try solve [left; unfold Read, returnNoState; rewrite Hpd; cbv zeta;
               rewrite decoded_clean, Hdg, Hf, Hn, Hid;
               cbn [types.IsNull types.IsUnknown orb]; eauto].
  right. exists name, vmID. eauto.
Qed.

Lemma Read_calls_client (api : proxmox.API) (d : vmConfigDataSource)
  (pd : proxmoxveProviderData) (req : datasource.ReadRequest)
  (resp : datasource.ReadResponse) (calls : list proxmox.Call)
  (c : proxmox.Client) (name : string) :
  providerData d = Some pd ->
  Read api d req = Ok (resp, calls) ->
  In (proxmox.CallNode c name) calls -> c = client pd.
Proof.
  intros Hpd H Hin.
  destruct (Read_precondition_cases api d pd req Hpd)
    as [(dgs & E) | (n & vmID & Hdg & filter & Hf & Hn & Hid)].
  { rewrite E in H. injection H as _ <-. destruct Hin. }
  rewrite (Read_after_preconditions api d pd req filter n vmID Hpd Hdg Hf Hn Hid) in H.
  destruct (proxmox.Client_Node api (client pd) n) as [[node [err|]]|e];
    [| |discriminate H].
  - injection H as _ <-. destruct Hin as [E | []]. congruence.
  - cbv zeta in H.
    destruct (proxmox.Node_VirtualMachine api node vmID) as [[[vm|] [err|]]|e];
      try discriminate H;
      try (injection H as _ <-; destruct Hin as [E | [E | []]];
           [congruence | discriminate E]).
    destruct (match proxmox.Config vm with Some _ => _ | None => _ end);
      cbn [bind] in H; [|discriminate H].
    injection H as _ <-. destruct Hin as [E | [E | []]]; [congruence | discriminate E].
Qed.

(** Why a lookup of a configured data source faults: only after the node
    request was sent for a usable request. *)
Lemma Read_fault_cases (api : proxmox.API) (d : vmConfigDataSource)
  (pd : proxmoxveProviderData) (req : datasource.ReadRequest) (e : RuntimeError) :
  providerData d = Some pd ->
  Read api d req = Panic e ->
  exists name vmID,
    validLookup req name vmID /\
    (proxmox.Client_Node api (client pd) name = Panic e \/
     exists node,
       proxmox.Client_Node api (client pd) name = Ok (node, None) /\
       (proxmox.Node_VirtualMachine api node vmID = Panic e \/
        (proxmox.Node_VirtualMachine api node vmID = Ok (None, None) /\
         e = NilPointerDereference) \/
        exists vm,
          proxmox.Node_VirtualMachine api node vmID = Ok (Some vm, None) /\
          allWellFormed (slotLines vm) = false /\ e = IndexOutOfRange 1 1)).
Proof.
  intros Hpd H.
  destruct (Read_precondition_cases api d pd req Hpd)
    as [(dgs & E) | (n & vmID & Hdg & filter & Hf & Hn & Hid)].
  { rewrite E in H. discriminate H. }
  exists n, vmID. split; [split; [exact Hdg | eauto]|].
  rewrite (Read_after_preconditions api d pd req filter n vmID Hpd Hdg Hf Hn Hid) in H.
  destruct (proxmox.Client_Node api (client pd) n) as [[node [err|]]|e'];
    [discriminate H| |left; congruence].
  right. exists node. split; [reflexivity|]. cbv zeta in H.
  destruct (proxmox.Node_VirtualMachine api node vmID) as [[[vm|] [err|]]|e'] eqn:V;
    try discriminate H.
  - right. right. exists vm. split; [reflexivity|]. unfold slotLines.
    destruct (proxmox.Config vm) as [vmc|]; [|discriminate H].
    rewrite parseNets_lines in H. destruct (allWellFormed _); [discriminate H|].
    cbn [bind] in H. split; congruence.
  - right. left. split; congruence.
  - left. congruence.
Qed.

(** X17: handing the data published by a provider [Configure] that returned
    to the data source's [Configure] gives, without any diagnostic, a data
    source that holds the handle the provider built.  Its lookups fault only
    after the node request was sent for a usable request, never for want of
    provider data: when a library call faults, when the VM request returns
    neither a record nor an error, or on a slot line with a pair without
    ['='].  Every node request of a lookup that returns goes through the
    client the provider built. *)
Theorem configured_data_source_looks_up (api : proxmox.API) (p : proxmoxveProvider)
  (creq : provider.ConfigureRequest) (cresp : provider.ConfigureResponse)
  (data : proxmoxveProviderData) :
  fst (Configure api p creq) = Ok cresp ->
  provider.DataSourceData cresp = Some data ->
  let shared := newClient (provider.Config creq) in
  let configured :=
    DataSourceConfigure NewVMConfigDataSource (Some (ProviderDataPointer (Some data))) [] in
  snd configured = [] /\
  providerData (fst configured) = Some (handle p (provider.Config creq)) /\
  forall api' req,
    (forall e,
       Read api' (fst configured) req = Panic e ->
       exists name vmID,
         validLookup req name vmID /\
         (proxmox.Client_Node api' shared name = Panic e \/
          exists node,
            proxmox.Client_Node api' shared name = Ok (node, None) /\
            (proxmox.Node_VirtualMachine api' node vmID = Panic e \/
             (proxmox.Node_VirtualMachine api' node vmID = Ok (None, None) /\
              e = NilPointerDereference) \/
             exists vm,
               proxmox.Node_VirtualMachine api' node vmID = Ok (Some vm, None) /\
               allWellFormed (slotLines vm) = false /\ e = IndexOutOfRange 1 1))) /\
    (forall resp calls c name,
       Read api' (fst configured) req = Ok (resp, calls) ->
       In (proxmox.CallNode c name) calls ->
       c = shared).
Proof.
  intros Hrun Hdata shared configured. subst shared configured.
  cbn [DataSourceConfigure fst snd providerData].
  assert (data = handle p (provider.Config creq)) as ->.
  { destruct (Configure_analysis api p creq)
      as [(_ & r & Hr & _ & Hd & _) | (_ & _ & _ & H)].
    - rewrite Hrun in Hr. injection Hr as <-. congruence.
    - rewrite Hrun in H.
      destruct (proxmox.Client_Version api _) as [[[v|] [err|]]|e];
        cbv beta iota in H; try discriminate H;
        destruct H as (r & Hr & _ & Hd & _); injection Hr as <-; congruence. }
  split; [reflexivity|]. split; [reflexivity|]. intros api' req. split.
  - intros e H.
    exact (Read_fault_cases api' {| providerData := Some (handle p (provider.Config creq)) |}
             (handle p (provider.Config creq)) req e eq_refl H).
  - intros resp calls c name H Hin.
    exact (Read_calls_client api' {| providerData := Some (handle p (provider.Config creq)) |}
             (handle p (provider.Config creq)) req resp calls c name eq_refl H Hin).
Qed.

Lemma configured_data_source_looks_up_witness :
  let data := handle {| version := "dev" |} exampleConfig in
  let configured :=
    DataSourceConfigure NewVMConfigDataSource (Some (ProviderDataPointer (Some data))) [] in
  (exists cresp,
     fst (Configure (exampleAPI []) {| version := "dev" |} (configureRequest exampleConfig)) =
       Ok cresp /\
     provider.DataSourceData cresp = Some data) /\
  snd configured = [] /\
  providerData (fst configured) = Some data /\
  Read emptyAnswerAPI (fst configured)
    (lookup (types.StringValue "pve1") (types.Int32Value 100)) =
  Panic NilPointerDereference.
Proof.
  intros data configured.
  assert (exists cresp,
            fst (Configure (exampleAPI []) {| version := "dev" |}
                   (configureRequest exampleConfig)) = Ok cresp /\
            provider.DataSourceData cresp = Some data) as Hrun
    by (eexists; split; [vm_compute; reflexivity | reflexivity]).
  split; [exact Hrun|].
  destruct Hrun as (cresp & Hrun & Hdata).
  destruct (configured_data_source_looks_up (exampleAPI []) {| version := "dev" |}
              (configureRequest exampleConfig) cresp data Hrun Hdata) as (Hdg & Hpd & _).
  split; [exact Hdg|]. split; [exact Hpd | reflexivity].
Defined.

(** The data source's [Configure] leaves the data source untouched when
    it is handed no provider data (silently) or a value of a foreign type
    (with one error naming that type); a data source that never received
    provider data faults on every lookup before sending anything. *)
Lemma unconfigured_data_source (d : vmConfigDataSource) (dg : diag.Diagnostics)
  (goType : string) :
  DataSourceConfigure d None dg = (d, dg) /\
  fst (DataSourceConfigure d (Some (OtherValue goType)) dg) = d /\
  (diag.HasError dg = false ->
   diag.Errors (snd (DataSourceConfigure d (Some (OtherValue goType)) dg)) =
     [diag.NewErrorDiagnostic "Unexpected Data Source Configure Type"
        (diag.Sprintf
           "Expected *proxmoxveProviderData, got: %T. Please report this issue to the provider developers."
           [diag.OpString goType])]) /\
  (forall api req,
     Read api (fst (DataSourceConfigure NewVMConfigDataSource None dg)) req =
       Panic NilPointerDereference).
Proof.
  repeat split.
  intros H. cbn [DataSourceConfigure snd].
  rewrite diagFacts.Errors_AddError, (proj1 (diagFacts.no_Errors _) H). reflexivity.
Qed.
